(** * The factory digital twin ([state_engine.py]) and its command surface

    A shallow embedding of [FactoryState] — cash, inventory, machine health,
    shift, clock and the list of running jobs — together with the SQLite
    history tables it writes and the random generator its market model draws
    from.

    Conventions of the embedding:
    - Python [int] is [Z]; Python [float] is the exact rational ([Q]) or, for
      the transcendental intermediate values of the market model, the real
      number ([R]) it approximates.  Rounding error of binary floating point
      is not modelled: statements about exact amounts are made for whole
      numbers up to [2^53], where float arithmetic is exact, and statements
      about forecast values carry a tolerance.  The two hard limits that
      change control flow are modelled: an int too large for a float
      ([OverflowError] at the debit of [start_job]) and an int too large
      for SQLite (the row of [_log_job] is not written).
    - A method of [FactoryState] is a function [World -> outcome A]: it
      either returns a value or raises, and in both cases leaves a world
      behind (Python mutates in place, so the changes made before an
      exception stay).
    - [logging] output is not part of the model; SQLite is assumed to accept
      every well-formed statement, so the only failing write is the primary
      key conflict of a plain [INSERT]. *)

From Stdlib Require Import ZArith QArith Qround Qminmax Qreals Reals Lra Lia.
From Stdlib Require Import String Ascii List.
From Stdlib Require Import DecimalString DecimalZ DecimalPos.
From stdpp Require Import gmap strings.
Import ListNotations.

Open Scope Z_scope.

(** ** Python values *)

(** A number that is either an [int] or a [float].  Only [machine_health]
    needs the distinction: it starts as the float [100.0] and becomes the
    int [0] when [max(0, ...)] floors it. *)
Inductive pynum : Type :=
| PyInt (z : Z)
| PyFloat (q : Q).

Definition num_val (n : pynum) : Q :=
  match n with
  | PyInt z => inject_Z z
  | PyFloat q => q
  end.

(** [n - k] for an int [k]: int - int is an int, float - int a float. *)
Definition num_sub_int (n : pynum) (k : Z) : pynum :=
  match n with
  | PyInt z => PyInt (z - k)
  | PyFloat q => PyFloat (q - inject_Z k)
  end.

(** [max(0, x)]: Python keeps the first argument unless a later one is
    strictly greater, so the result is the int [0] whenever [x <= 0]. *)
Definition py_max0 (x : pynum) : pynum :=
  if Qle_bool (num_val x) 0 then PyInt 0 else x.

(** Dictionary keys: the engine uses both strings and ints as keys, and in
    Python a string never equals an int. *)
Inductive pykey : Type :=
| KStr (s : string)
| KInt (n : Z).

Definition pykey_eqb (a b : pykey) : bool :=
  match a, b with
  | KStr s, KStr t => String.eqb s t
  | KInt n, KInt m => Z.eqb n m
  | _, _ => false
  end.

(** [str(n)] for an int. *)
Definition py_str (n : Z) : string := NilZero.string_of_int (Z.to_int n).

(** ** Jobs, history rows, forecast entries *)

(** The job dictionary built by [start_job]. *)
Record Job : Type := mkJob {
  j_id : string;
  j_qty : Z;
  j_start_tick : Z;
  j_duration : Z;
  j_cost : Z;
  j_revenue : Q
}.

(** [==] on two job dictionaries: same keys, pairwise equal values (numeric
    equality on numbers). *)
Definition job_eqb (a b : Job) : bool :=
  String.eqb (j_id a) (j_id b) && Z.eqb (j_qty a) (j_qty b)
  && Z.eqb (j_start_tick a) (j_start_tick b)
  && Z.eqb (j_duration a) (j_duration b)
  && Z.eqb (j_cost a) (j_cost b)
  && Qeq_bool (j_revenue a) (j_revenue b).

(** A row of [job_history] without its key [job_id]. *)
Record JobRow : Type := mkJobRow {
  r_start_tick : Z;
  r_end_tick : Z;
  r_status : string;
  r_revenue : Q;
  r_cost : Z
}.

(** A row of [factory_history] without its key [tick]. *)
Record TickRow : Type := mkTickRow {
  t_cash_balance : Q;
  t_inventory : Z;
  t_machine_health : Q;
  t_active_jobs_count : Z;
  t_shift : string
}.

(** One entry of the forecast: [{"demand": ..., "price": ...}]. *)
Record MarketEntry : Type := mkEntry {
  demand : Z;
  price : Q
}.

(** ** The world a method runs in *)

Record FactoryState : Type := mkState {
  inventory : Z;
  cash_balance : Q;
  machine_health : pynum;
  factory_clock : Z;
  current_shift : string;
  active_jobs : list Job;
  base_market_price : Q;
  base_market_demand : Z
}.

(** The two tables of the SQLite file, keyed by their primary keys. *)
Record Database : Type := mkDb {
  factory_history : gmap Z TickRow;
  job_history : gmap string JobRow
}.

(** The module-level generator of [random].  [randint_draw n] is what the
    [n]-th call returns when that call is [random.randint(-2, 2)],
    [uniform_draw n] what it returns when it is [random.uniform(-5, 5)];
    [draws] counts the calls made so far. *)
Record Random : Type := mkRandom {
  randint_draw : nat -> Z;
  uniform_draw : nat -> R;
  draws : nat
}.

Record World : Type := mkWorld {
  twin : FactoryState;
  db : Database;
  rng : Random
}.

(** [FactoryState.__init__]: the tables are created only if they do not
    exist, so the rows of an earlier run stay. *)
Definition init_state : FactoryState :=
  {| inventory := 0;
     cash_balance := 1000;
     machine_health := PyFloat 100;
     factory_clock := 0;
     current_shift := "DAY";
     active_jobs := [];
     base_market_price := 150;
     base_market_demand := 10 |}.

Definition FactoryState_init (d : Database) (g : Random) : World :=
  {| twin := init_state; db := d; rng := g |}.

Definition empty_db : Database :=
  {| factory_history := ∅; job_history := ∅ |}.

(** A generator whose every draw is zero noise. *)
Definition quiet_rng : Random :=
  {| randint_draw := fun _ => 0; uniform_draw := fun _ => 0%R; draws := 0 |}.

Definition fresh : World := FactoryState_init empty_db quiet_rng.

(** *** Field updates *)

Definition with_twin (f : FactoryState -> FactoryState) (w : World) : World :=
  {| twin := f (twin w); db := db w; rng := rng w |}.

Definition with_db (f : Database -> Database) (w : World) : World :=
  {| twin := twin w; db := f (db w); rng := rng w |}.

Definition set_inventory (v : Z) (s : FactoryState) : FactoryState :=
  {| inventory := v; cash_balance := cash_balance s;
     machine_health := machine_health s; factory_clock := factory_clock s;
     current_shift := current_shift s; active_jobs := active_jobs s;
     base_market_price := base_market_price s;
     base_market_demand := base_market_demand s |}.

Definition set_cash_balance (v : Q) (s : FactoryState) : FactoryState :=
  {| inventory := inventory s; cash_balance := v;
     machine_health := machine_health s; factory_clock := factory_clock s;
     current_shift := current_shift s; active_jobs := active_jobs s;
     base_market_price := base_market_price s;
     base_market_demand := base_market_demand s |}.

Definition set_machine_health (v : pynum) (s : FactoryState) : FactoryState :=
  {| inventory := inventory s; cash_balance := cash_balance s;
     machine_health := v; factory_clock := factory_clock s;
     current_shift := current_shift s; active_jobs := active_jobs s;
     base_market_price := base_market_price s;
     base_market_demand := base_market_demand s |}.

Definition set_factory_clock (v : Z) (s : FactoryState) : FactoryState :=
  {| inventory := inventory s; cash_balance := cash_balance s;
     machine_health := machine_health s; factory_clock := v;
     current_shift := current_shift s; active_jobs := active_jobs s;
     base_market_price := base_market_price s;
     base_market_demand := base_market_demand s |}.

Definition set_current_shift (v : string) (s : FactoryState) : FactoryState :=
  {| inventory := inventory s; cash_balance := cash_balance s;
     machine_health := machine_health s; factory_clock := factory_clock s;
     current_shift := v; active_jobs := active_jobs s;
     base_market_price := base_market_price s;
     base_market_demand := base_market_demand s |}.

Definition set_active_jobs (v : list Job) (s : FactoryState) : FactoryState :=
  {| inventory := inventory s; cash_balance := cash_balance s;
     machine_health := machine_health s; factory_clock := factory_clock s;
     current_shift := current_shift s; active_jobs := v;
     base_market_price := base_market_price s;
     base_market_demand := base_market_demand s |}.

(** ** Outcomes and the engine monad *)

Inductive exn : Type :=
| KeyError (k : pykey)
| ValueError
| OverflowError.

Inductive outcome (A : Type) : Type :=
| Returned (a : A) (w : World)
| Raised (e : exn) (w : World).
Arguments Returned {A} a w.
Arguments Raised {A} e w.

Definition Eng (A : Type) : Type := World -> outcome A.

#[global] Instance Eng_ret : MRet Eng := fun A a w => Returned a w.

#[global] Instance Eng_bind : MBind Eng := fun A B k m w =>
  match m w with
  | Returned a w' => k a w'
  | Raised e w' => Raised e w'
  end.

Definition raise {A : Type} (e : exn) : Eng A := fun w => Raised e w.
Definition self : Eng FactoryState := fun w => Returned (twin w) w.
Definition update (f : FactoryState -> FactoryState) : Eng unit :=
  fun w => Returned tt (with_twin f w).

(** The world an outcome leaves behind, raised or not. *)
Definition world_of {A : Type} (o : outcome A) : World :=
  match o with
  | Returned _ w => w
  | Raised _ w => w
  end.

Definition raised {A : Type} (o : outcome A) : option exn :=
  match o with
  | Returned _ _ => None
  | Raised e _ => Some e
  end.

(** ** Limits of the number types *)

(** An int that [float(n)] can convert: the conversion rounds to the
    nearest double and raises [OverflowError] ("int too large to convert to
    float") from [2^1024 - 2^970] on, the midpoint above the largest
    double. *)
Definition fits_float (n : Z) : bool := Z.abs n <? 2 ^ 1024 - 2 ^ 970.

(** An int that SQLite can store: [sqlite3] raises [OverflowError] when it
    binds a Python int outside the signed 64-bit range. *)
Definition fits_int64 (n : Z) : bool := (- 2 ^ 63 <=? n) && (n <? 2 ^ 63).

(** ** Persistence *)

(** [_log_state]: a plain [INSERT]; a row with the same tick makes SQLite
    refuse it, the exception is caught and logged, the table stays. *)
Definition _log_state : Eng unit := fun w =>
  let s := twin w in
  let row := {| t_cash_balance := cash_balance s;
                t_inventory := inventory s;
                t_machine_health := num_val (machine_health s);
                t_active_jobs_count := Z.of_nat (length (active_jobs s));
                t_shift := current_shift s |} in
  match factory_history (db w) !! factory_clock s with
  | Some _ => Returned tt w
  | None =>
      Returned tt
        (with_db (fun d => {| factory_history :=
                                <[factory_clock s := row]> (factory_history d);
                              job_history := job_history d |}) w)
  end.

(** [_log_job]: [INSERT OR REPLACE] keyed by the job id.  Binding an int
    outside the 64-bit range raises inside the [try]; the exception is
    caught and logged and no row is written. *)
Definition _log_job (job : Job) (status : string) : Eng unit := fun w =>
  let row := {| r_start_tick := j_start_tick job;
                r_end_tick := factory_clock (twin w);
                r_status := status;
                r_revenue := j_revenue job;
                r_cost := j_cost job |} in
  if fits_int64 (j_start_tick job) && fits_int64 (factory_clock (twin w))
     && fits_int64 (j_cost job)
  then
    Returned tt
      (with_db (fun d => {| factory_history := factory_history d;
                            job_history := <[j_id job := row]> (job_history d) |})
         w)
  else Returned tt w.

(** ** Maintenance, finance and workforce logic *)

Definition repair_machine : Eng string :=
  s ← self;
  let cost := 200 in
  if Qle_bool (inject_Z cost) (cash_balance s) then
    update (fun s => set_cash_balance (cash_balance s - inject_Z cost) s);;
    update (set_machine_health (PyFloat 100));;
    mret ("Machine repaired. Cost: $" +:+ py_str cost +:+ ". Health: 100%.")
  else
    mret "Insufficient funds for repair.".

Definition start_job (job_id : string) (qty : Z) : Eng string :=
  s ← self;
  let unit_cost := 50 in
  let total_cost := unit_cost * qty in
  if Qle_bool (inject_Z total_cost) (cash_balance s) then
    if Qle_bool (num_val (machine_health s)) 0 then
      mret "Machine broken. Cannot start job."
    else if negb (fits_float total_cost) then
      (* [self.cash_balance -= total_cost] converts the int to a float *)
      raise OverflowError
    else
      update (fun s => set_cash_balance (cash_balance s - inject_Z total_cost) s);;
      let job := {| j_id := job_id; j_qty := qty;
                    j_start_tick := factory_clock s; j_duration := 5;
                    j_cost := total_cost; j_revenue := 0 |} in
      update (fun s => set_active_jobs (active_jobs s ++ [job]) s);;
      let wear := if String.eqb (current_shift s) "DAY" then 5 else 8 in
      update (fun s => set_machine_health
                         (py_max0 (num_sub_int (machine_health s) wear)) s);;
      _log_job job "STARTED";;
      mret ("Job " +:+ job_id +:+ " started. Cost: $" +:+ py_str total_cost
            +:+ ". Est. Duration: 5 ticks.")
  else
    mret "Insufficient funds to start job.".

(** [list.remove(x)]: drops the first element equal to [x]; [None] stands
    for the [ValueError] of a list without such an element. *)
Fixpoint list_remove (x : Job) (l : list Job) : option (list Job) :=
  match l with
  | [] => None
  | y :: r =>
      if job_eqb y x then Some r
      else match list_remove x r with
           | Some r' => Some (y :: r')
           | None => None
           end
  end.

Definition remove_active (job : Job) : Eng unit :=
  s ← self;
  match list_remove job (active_jobs s) with
  | Some l => update (set_active_jobs l)
  | None => raise ValueError
  end.

(** The [for job in self.active_jobs: if job['id'] == job_id] search. *)
Fixpoint find_job (job_id : string) (l : list Job) : option Job :=
  match l with
  | [] => None
  | job :: r => if String.eqb (j_id job) job_id then Some job else find_job job_id r
  end.

Definition cancel_job (job_id : string) : Eng string :=
  s ← self;
  match find_job job_id (active_jobs s) with
  | Some job =>
      remove_active job;;
      _log_job job "CANCELLED";;
      mret ("Job " +:+ job_id +:+ " cancelled.")
  | None => mret "Job not found."
  end.

Definition change_shift (new_shift : string) : Eng string :=
  if existsb (String.eqb new_shift) ["DAY"; "NIGHT"]%string then
    update (set_current_shift new_shift);;
    mret ("Shift changed to " +:+ new_shift +:+ ".")
  else
    mret "Invalid shift. Use DAY or NIGHT.".

(** ** Forecasting *)

(** A Python dictionary: insertion-ordered, assignment to a present key
    replaces the value in place. *)
Definition dict (V : Type) : Type := list (pykey * V).

Fixpoint dict_set {V : Type} (k : pykey) (v : V) (d : dict V) : dict V :=
  match d with
  | [] => [(k, v)]
  | (k', v') :: r =>
      if pykey_eqb k' k then (k', v) :: r else (k', v') :: dict_set k v r
  end.

Fixpoint dict_get {V : Type} (k : pykey) (d : dict V) : option V :=
  match d with
  | [] => None
  | (k', v') :: r => if pykey_eqb k' k then Some v' else dict_get k r
  end.

(** [d[k]]: a missing key raises [KeyError]. *)
Definition getitem {V : Type} (d : dict V) (k : pykey) : Eng V :=
  match dict_get k d with
  | Some v => mret v
  | None => raise (KeyError k)
  end.

(** [int(x)] on a float: truncation toward zero. *)
Definition py_int (x : R) : Z :=
  if Rle_dec 0 x then Int_part x else - Int_part (- x).

(** Rounding to the nearest integer, ties to the even one. *)
Definition round_half_even (x : R) : Z :=
  let f := Int_part x in
  if Rlt_dec (x - IZR f) (1 / 2) then f
  else if Rlt_dec (1 / 2) (x - IZR f) then f + 1
  else if Z.even f then f else f + 1.

(** [round(x, 2)]. *)
Definition py_round2 (x : R) : Q := round_half_even (x * 100) # 100.

Definition advance (w : World) : World :=
  {| twin := twin w; db := db w;
     rng := {| randint_draw := randint_draw (rng w);
               uniform_draw := uniform_draw (rng w);
               draws := S (draws (rng w)) |} |}.

(** [random.randint(-2, 2)]. *)
Definition random_randint : Eng Z := fun w =>
  Returned (randint_draw (rng w) (draws (rng w))) (advance w).

(** [random.uniform(-5, 5)]. *)
Definition random_uniform : Eng R := fun w =>
  Returned (uniform_draw (rng w) (draws (rng w))) (advance w).

(** What the library promises about the two calls. *)
Definition rng_sound (g : Random) : Prop :=
  forall n, -2 <= randint_draw g n <= 2 /\ (-5 <= uniform_draw g n <= 5)%R.

(** [range(a, b)]. *)
Definition py_range (a b : Z) : list Z :=
  map (fun i => a + Z.of_nat i) (seq 0 (Z.to_nat (b - a))).

(** A [for] loop that threads an accumulator through the monad. *)
Fixpoint for_acc {A B : Type} (body : A -> B -> Eng B) (l : list A) (acc : B)
  : Eng B :=
  match l with
  | [] => mret acc
  | x :: r => acc' ← body x acc; for_acc body r acc'
  end.

(** [math.sin(future_tick * (2 * math.pi / 24))], as the real number the
    float result approximates. *)
Definition cycle_of (future_tick : Z) : R :=
  sin (IZR future_tick * (2 * PI / 24)).

(** The body of the loop of [get_market_forecast].  [int] and [round] are
    applied to the real values; the floats of the source differ from them
    by rounding error, which can move a value across an integer or a
    half-cent boundary. *)
Definition forecast_step (t : Z) (forecast : dict MarketEntry)
  : Eng (dict MarketEntry) :=
  s ← self;
  let future_tick := factory_clock s + t in
  let cycle := cycle_of future_tick in
  n ← random_randint;
  let demand := py_int (IZR (base_market_demand s) + cycle * 5 + IZR n) in
  let demand := Z.max 1 demand in
  u ← random_uniform;
  let price := (Q2R (base_market_price s) + cycle * 20 + u)%R in
  mret (dict_set (KStr (py_str future_tick))
          {| demand := demand; price := py_round2 price |} forecast).

Definition get_market_forecast (horizon : Z) : Eng (dict MarketEntry) :=
  for_acc forecast_step (py_range 1 (horizon + 1)) [].

(** ** The simulation loop *)

Definition set_duration (v : Z) (job : Job) : Job :=
  {| j_id := j_id job; j_qty := j_qty job; j_start_tick := j_start_tick job;
     j_duration := v; j_cost := j_cost job; j_revenue := j_revenue job |}.

Definition set_revenue (v : Q) (job : Job) : Job :=
  {| j_id := j_id job; j_qty := j_qty job; j_start_tick := j_start_tick job;
     j_duration := j_duration job; j_cost := j_cost job; j_revenue := v |}.

(** The first loop of [tick]: every job loses one tick of duration, and the
    ones at or below zero are collected, in list order.  Returns the updated
    list and [completed_jobs]. *)
Fixpoint progress_jobs (l : list Job) : list Job * list Job :=
  match l with
  | [] => ([], [])
  | job :: r =>
      let job' := set_duration (j_duration job - 1) job in
      let (r', completed_jobs) := progress_jobs r in
      (job' :: r',
       if j_duration job' <=? 0 then job' :: completed_jobs else completed_jobs)
  end.

(** The body of the second loop of [tick]. *)
Definition complete_job (job : Job) : Eng unit :=
  remove_active job;;
  forecast ← get_market_forecast 1;
  s ← self;
  current_market ← getitem forecast (KInt (factory_clock s + 1));
  let market_price := price current_market in
  let revenue := (inject_Z (j_qty job) * market_price)%Q in
  let job := set_revenue revenue job in
  update (fun s => set_cash_balance (cash_balance s + revenue) s);;
  update (fun s => set_inventory (inventory s + j_qty job) s);;
  _log_job job "COMPLETED".

Fixpoint for_each {A : Type} (body : A -> Eng unit) (l : list A) : Eng unit :=
  match l with
  | [] => mret tt
  | x :: r => body x;; for_each body r
  end.

Definition tick : Eng unit :=
  update (fun s => set_factory_clock (factory_clock s + 1) s);;
  s ← self;
  let (jobs, completed_jobs) := progress_jobs (active_jobs s) in
  update (set_active_jobs jobs);;
  for_each complete_job completed_jobs;;
  _log_state.

(** ** Reads *)

(** Rounding a rational to the nearest integer, ties to the even one. *)
Definition Qround_half_even (q : Q) : Z :=
  let f := Qfloor q in
  match (q - inject_Z f ?= 1 # 2)%Q with
  | Lt => f
  | Gt => f + 1
  | Eq => if Z.even f then f else f + 1
  end.

(** The format [:.2f]: sign, integer part, two decimals. *)
Definition fmt_2f (q : Q) : string :=
  let c := Z.abs (Qround_half_even (q * 100)) in
  (if Qle_bool 0 q then "" else "-")
  +:+ py_str (c / 100) +:+ "." +:+ py_str (c mod 100 / 10) +:+ py_str (c mod 10).

(** The digits after the point of [num / den], until the remainder is zero
    or [fuel] digits are written. *)
Fixpoint frac_digits (fuel : nat) (num den : Z) : string :=
  match fuel with
  | O => ""
  | S fuel' =>
      if num =? 0 then ""
      else py_str (10 * num / den) +:+ frac_digits fuel' (10 * num mod den) den
  end.

(** [str(x)] of a float, for the floats with a short exact decimal expansion
    below [1e16] (machine health is a whole number between 0 and 100 on every
    path from a new [FactoryState]). *)
Definition py_str_float (q : Q) : string :=
  let n := Z.abs (Qnum q) in
  let d := Z.pos (Qden q) in
  let frac := frac_digits 17 (n mod d) d in
  (if Qle_bool 0 q then "" else "-")
  +:+ py_str (n / d) +:+ "." +:+ (if String.eqb frac "" then "0" else frac).

Definition py_str_num (n : pynum) : string :=
  match n with
  | PyInt z => py_str z
  | PyFloat q => py_str_float q
  end.

Definition get_status : Eng string :=
  s ← self;
  mret ("Tick: " +:+ py_str (factory_clock s)
        +:+ " | Shift: " +:+ current_shift s
        +:+ " | Cash: $" +:+ fmt_2f (cash_balance s)
        +:+ " | Inventory: " +:+ py_str (inventory s)
        +:+ " | Health: " +:+ py_str_num (machine_health s)
        +:+ "% | Active Jobs: " +:+ py_str (Z.of_nat (length (active_jobs s)))).

(** A dictionary with string keys and number values. *)
Definition get_financials : Eng (list (string * pynum)) :=
  s ← self;
  mret [("Cash Balance"%string, PyFloat (cash_balance s));
        ("Unit Cost"%string, PyInt 50);
        ("Unit Revenue (Est)"%string, PyFloat (base_market_price s))].

Definition log_issue (category description : string) : Eng string :=
  mret "LOGGED".

(** ** The tool layer ([tools.py]) *)

(** What a tool hands to the agent: Python is dynamically typed, so the
    declared return type of a tool does not constrain the value. *)
#[local] Set Warnings "-register-all".
Inductive pyvalue : Type :=
| VStr (s : string)
| VNum (n : pynum)
| VDict (items : list (string * pyvalue)).

(** A call either reaches the body of the callee or fails while Python
    binds the arguments: a missing positional argument is a [TypeError]
    raised before any statement of the body runs. *)
Inductive call_outcome (A : Type) : Type :=
| Called (o : outcome A)
| TypeError (w : World).
Arguments Called {A} o.
Arguments TypeError {A} w.

Module AFMTools.

(** [return self.state.get_status()]. *)
Definition get_status : Eng pyvalue :=
  r ← get_status; mret (VStr r).

(** [return self.state.get_financials()]. *)
Definition get_financials : Eng pyvalue :=
  r ← get_financials;
  mret (VDict (map (fun kv => (fst kv, VNum (snd kv))) r)).

(** [return self.state.start_job(order_id, qty)]. *)
Definition start_job (order_id : string) (qty : Z) : World -> call_outcome string :=
  fun w => Called (start_job order_id qty w).

(** [return self.state.cancel_job(order_id)]. *)
Definition cancel_job (order_id : string) : World -> call_outcome string :=
  fun w => Called (cancel_job order_id w).

(** [return self.state.repair_machine()]. *)
Definition repair_machine : World -> call_outcome string :=
  fun w => Called (repair_machine w).

(** [return self.state.change_shift()]: the tool takes no argument and
    passes none, while [FactoryState.change_shift] requires [new_shift]. *)
Definition change_shift : World -> call_outcome string :=
  fun w => TypeError w.

(** [return self.state.get_market_forecast()], with the default horizon. *)
Definition get_market_forecast : World -> call_outcome (dict MarketEntry) :=
  fun w => Called (get_market_forecast 5 w).

(** [return self.state.log_issue(category, description)]. *)
Definition log_issue (category description : string)
  : World -> call_outcome string :=
  fun w => Called (log_issue category description w).

End AFMTools.

(** ** Sessions *)

(** The calls a caller can make on a [FactoryState]. *)
Inductive Command : Type :=
| StartJob (job_id : string) (qty : Z)
| CancelJob (job_id : string)
| RepairMachine
| ChangeShift (new_shift : string)
| Tick
| GetStatus
| GetFinancials
| GetMarketForecast (horizon : Z)
| LogIssue (category description : string).

(** The world after a call, whether it returned or raised. *)
Definition exec (c : Command) (w : World) : World :=
  match c with
  | StartJob job_id qty => world_of (start_job job_id qty w)
  | CancelJob job_id => world_of (cancel_job job_id w)
  | RepairMachine => world_of (repair_machine w)
  | ChangeShift new_shift => world_of (change_shift new_shift w)
  | Tick => world_of (tick w)
  | GetStatus => world_of (get_status w)
  | GetFinancials => world_of (get_financials w)
  | GetMarketForecast horizon => world_of (get_market_forecast horizon w)
  | LogIssue category description => world_of (log_issue category description w)
  end.

(** The worlds a session can be in: a new [FactoryState] over any database
    file and any generator, followed by any calls. *)
Inductive reachable : World -> Prop :=
| reachable_init d g : reachable (FactoryState_init d g)
| reachable_exec c w : reachable w -> reachable (exec c w).

Definition run (cs : list Command) (w : World) : World :=
  fold_left (fun w c => exec c w) cs w.

(** The world a call leaves behind. *)
Definition world_after {A : Type} (c : call_outcome A) : World :=
  match c with
  | Called o => world_of o
  | TypeError w => w
  end.

(** The eight tools the agent is given ([FactoryAgent._setup_adk]). *)
Inductive ToolCall : Type :=
| TStartJob (order_id : string) (qty : Z)
| TCancelJob (order_id : string)
| TRepairMachine
| TChangeShift
| TGetStatus
| TGetFinancials
| TGetMarketForecast
| TLogIssue (category description : string).

Definition tool_exec (c : ToolCall) (w : World) : World :=
  match c with
  | TStartJob order_id qty => world_after (AFMTools.start_job order_id qty w)
  | TCancelJob order_id => world_after (AFMTools.cancel_job order_id w)
  | TRepairMachine => world_after (AFMTools.repair_machine w)
  | TChangeShift => world_after (AFMTools.change_shift w)
  | TGetStatus => world_of (AFMTools.get_status w)
  | TGetFinancials => world_of (AFMTools.get_financials w)
  | TGetMarketForecast => world_after (AFMTools.get_market_forecast w)
  | TLogIssue category description =>
      world_after (AFMTools.log_issue category description w)
  end.

Definition tool_run (cs : list ToolCall) (w : World) : World :=
  fold_left (fun w c => tool_exec c w) cs w.

(** ** Vocabulary of the statements *)

(** The entry the loop body writes for offset [t] when its two draws are
    number [i] and [i + 1] of the generator. *)
Definition forecast_entry (s : FactoryState) (ri : nat -> Z) (un : nat -> R)
  (t : Z) (i : nat) : pykey * MarketEntry :=
  let cycle := cycle_of (factory_clock s + t) in
  (KStr (py_str (factory_clock s + t)),
   {| demand := Z.max 1 (py_int (IZR (base_market_demand s) + cycle * 5
                                 + IZR (ri i)));
      price := py_round2 (Q2R (base_market_price s) + cycle * 20 + un (S i)) |}).

(** The [n] entries written for the offsets [t, t + 1, ..], the draws being
    taken from number [i] on, two per entry. *)
Fixpoint forecast_items (s : FactoryState) (ri : nat -> Z) (un : nat -> R)
  (t : Z) (i : nat) (n : nat) : dict MarketEntry :=
  match n with
  | O => []
  | S n' => forecast_entry s ri un t i :: forecast_items s ri un (t + 1) (S (S i)) n'
  end.

(** The world after [k] more calls to the generator. *)
Definition advance_by (k : nat) (w : World) : World := Nat.iter k advance w.

(** [job['duration'] -= 1]. *)
Definition decrement (job : Job) : Job := set_duration (j_duration job - 1) job.

(** The world after the clock moved and the durations were decremented. *)
Definition ticked (jobs : list Job) (w : World) : World :=
  with_twin (fun s => set_active_jobs jobs
                        (set_factory_clock (factory_clock s + 1) s)) w.

(** [5 if self.current_shift == "DAY" else 8]. *)
Definition wear_of (shift : string) : Z :=
  if String.eqb shift "DAY" then 5 else 8.

(** The invariant of the machine health. *)
Definition health_ok (w : World) : Prop :=
  (0 <= num_val (machine_health (twin w)) <= 100)%Q.

(** The job, the history row and the world a successful [start_job] leaves. *)
Definition started_job (job_id : string) (qty : Z) (s : FactoryState) : Job :=
  {| j_id := job_id; j_qty := qty; j_start_tick := factory_clock s;
     j_duration := 5; j_cost := 50 * qty; j_revenue := 0 |}.

Definition started_row (qty : Z) (s : FactoryState) : JobRow :=
  {| r_start_tick := factory_clock s; r_end_tick := factory_clock s;
     r_status := "STARTED"; r_revenue := 0; r_cost := 50 * qty |}.

Definition started_world (job_id : string) (qty : Z) (w : World) : World :=
  let s := twin w in
  {| twin := {| inventory := inventory s;
                cash_balance := cash_balance s - inject_Z (50 * qty);
                machine_health :=
                  py_max0 (num_sub_int (machine_health s)
                             (wear_of (current_shift s)));
                factory_clock := factory_clock s;
                current_shift := current_shift s;
                active_jobs := active_jobs s ++ [started_job job_id qty s];
                base_market_price := base_market_price s;
                base_market_demand := base_market_demand s |};
     db := if fits_int64 (factory_clock s) && fits_int64 (factory_clock s)
              && fits_int64 (50 * qty)
           then {| factory_history := factory_history (db w);
                   job_history := <[job_id := started_row qty s]>
                                    (job_history (db w)) |}
           else db w;
     rng := rng w |}.

(** The history row and the world a successful [cancel_job] leaves. *)
Definition cancelled_row (job : Job) (s : FactoryState) : JobRow :=
  {| r_start_tick := j_start_tick job; r_end_tick := factory_clock s;
     r_status := "CANCELLED"; r_revenue := j_revenue job;
     r_cost := j_cost job |}.

Definition cancelled_world (job : Job) (remaining : list Job) (w : World)
  : World :=
  {| twin := set_active_jobs remaining (twin w);
     db := if fits_int64 (j_start_tick job)
              && fits_int64 (factory_clock (twin w))
              && fits_int64 (j_cost job)
           then {| factory_history := factory_history (db w);
                   job_history := <[j_id job := cancelled_row job (twin w)]>
                                    (job_history (db w)) |}
           else db w;
     rng := rng w |}.

(** [part in whole] on strings. *)
Definition contains (part whole : string) : Prop :=
  exists pre post, whole = pre +:+ part +:+ post.

(** Scenario A: a new factory on which [start_job("O1", 10)] was called. *)
Definition scenario_A : World := exec (StartJob "O1" 10) fresh.

(** Scenario D and its siblings: a factory with cash 100 and a machine at
    health 0. *)
Definition broke : World :=
  with_twin (fun s => set_machine_health (PyInt 0) (set_cash_balance 100 s))
    fresh.

(** The text [get_status] builds from the six values. *)
Definition status_text (s : FactoryState) : string :=
  "Tick: " +:+ py_str (factory_clock s)
  +:+ " | Shift: " +:+ current_shift s
  +:+ " | Cash: $" +:+ fmt_2f (cash_balance s)
  +:+ " | Inventory: " +:+ py_str (inventory s)
  +:+ " | Health: " +:+ py_str_num (machine_health s)
  +:+ "% | Active Jobs: " +:+ py_str (Z.of_nat (length (active_jobs s))).


(** The number of [tick()] calls in a session. *)
Definition count_ticks (cs : list Command) : Z :=
  Z.of_nat (length (List.filter
                      (fun c => match c with Tick => true | _ => false end) cs)).

(** The row [_log_state] writes for the tick of [s]. *)
Definition snapshot (s : FactoryState) : TickRow :=
  {| t_cash_balance := cash_balance s;
     t_inventory := inventory s;
     t_machine_health := num_val (machine_health s);
     t_active_jobs_count := Z.of_nat (length (active_jobs s));
     t_shift := current_shift s |}.

(** A job as [start_job] made it, aged by the ticks since its start. *)
Definition on_schedule (s : FactoryState) (job : Job) : Prop :=
  j_duration job = 5 - (factory_clock s - j_start_tick job)
  /\ j_start_tick job <= factory_clock s
  /\ j_cost job = 50 * j_qty job
  /\ j_revenue job = 0%Q.

(** The ways one call can change the twin. *)
Inductive twin_step (s : FactoryState) : FactoryState -> Prop :=
| step_none : twin_step s s
| step_start job_id qty :
    (inject_Z (50 * qty) <= cash_balance s)%Q ->
    (0 < num_val (machine_health s))%Q ->
    twin_step s
      (set_machine_health
         (py_max0 (num_sub_int (machine_health s) (wear_of (current_shift s))))
         (set_active_jobs (active_jobs s ++ [started_job job_id qty s])
            (set_cash_balance (cash_balance s - inject_Z (50 * qty)) s)))
| step_cancel l1 job l2 :
    active_jobs s = l1 ++ job :: l2 ->
    twin_step s (set_active_jobs (l1 ++ l2) s)
| step_repair :
    (200 <= cash_balance s)%Q ->
    twin_step s
      (set_machine_health (PyFloat 100)
         (set_cash_balance (cash_balance s - 200) s))
| step_shift new_shift :
    new_shift = "DAY"%string \/ new_shift = "NIGHT"%string ->
    twin_step s (set_current_shift new_shift s)
| step_tick jobs :
    jobs = map decrement (active_jobs s)
    \/ (exists c, list_remove c (map decrement (active_jobs s)) = Some jobs) ->
    twin_step s (set_active_jobs jobs
                   (set_factory_clock (factory_clock s + 1) s)).

(** A database file in which an earlier run left a COMPLETED row. *)
Definition old_db : Database :=
  {| factory_history := ∅;
     job_history := {[ "OLD"%string :=
                         {| r_start_tick := 0; r_end_tick := 5;
                            r_status := "COMPLETED"; r_revenue := 1500;
                            r_cost := 500 |} ]} |}.

(** A value of a string-keyed dictionary. *)
Fixpoint assoc_get {V : Type} (k : string) (d : list (string * V)) : option V :=
  match d with
  | [] => None
  | (k', v) :: r => if String.eqb k' k then Some v else assoc_get k r
  end.

(** A float that holds the whole number [n] exactly: every integer up to
    [2^53] in magnitude is a double, and sums and differences of such
    numbers that stay in that range are computed without rounding. *)
Definition whole (x : Q) (n : Z) : Prop :=
  (x == inject_Z n)%Q /\ Z.abs n <= 2 ^ 53.

(** * Properties *)

(** ** Unfolding the monad *)

Lemma bind_returned {A B : Type} (m : Eng A) (k : A -> Eng B) w a w' :
  m w = Returned a w' -> (m ≫= k) w = k a w'.
Proof. intros H. unfold mbind, Eng_bind. now rewrite H. Qed.

Lemma bind_raised {A B : Type} (m : Eng A) (k : A -> Eng B) w e w' :
  m w = Raised e w' -> (m ≫= k) w = Raised e w'.
Proof. intros H. unfold mbind, Eng_bind. now rewrite H. Qed.

Ltac run_eng :=
  unfold mbind, Eng_bind, mret, Eng_ret, update, self, raise; cbn beta iota.

(** ** [str] on ints is injective *)

Lemma py_str_inj (a b : Z) : py_str a = py_str b -> a = b.
Proof.
  unfold py_str. intros H.
  assert (Hnn : forall z, Z.to_int z <> Decimal.Pos Decimal.Nil
                          /\ Z.to_int z <> Decimal.Neg Decimal.Nil).
  { intros [|p|p]; cbn; split; try discriminate;
      intros E; injection E as E; now apply Unsigned.to_uint_nonnil in E. }
  destruct (Hnn a) as [Ha1 Ha2], (Hnn b) as [Hb1 Hb2].
  apply (f_equal NilZero.int_of_string) in H.
  rewrite !NilZero.isi in H by assumption.
  injection H as H. apply (f_equal Z.of_int) in H.
  now rewrite !DecimalZ.of_to in H.
Qed.

(** ** The market forecast *)

Lemma advance_by_S k w : advance_by k (advance w) = advance_by (S k) w.
Proof.
  induction k as [|k IH]; [reflexivity|].
  change (advance (advance_by k (advance w)) = advance (advance_by (S k) w)).
  now rewrite IH.
Qed.

Lemma twin_advance_by k w : twin (advance_by k w) = twin w.
Proof. induction k as [|k IH]; [reflexivity|]. exact IH. Qed.

Lemma db_advance_by k w : db (advance_by k w) = db w.
Proof. induction k as [|k IH]; [reflexivity|]. exact IH. Qed.

Lemma draws_advance_by k w :
  draws (rng (advance_by k w)) = (k + draws (rng w))%nat.
Proof. induction k as [|k IH]; [reflexivity|]. cbn. now rewrite <- IH. Qed.

Lemma dict_set_fresh {V : Type} (k : pykey) (v : V) (d : dict V) :
  dict_get k d = None -> dict_set k v d = d ++ [(k, v)].
Proof.
  induction d as [|[k' v'] d IH]; cbn; [reflexivity|].
  destruct (pykey_eqb k' k); [discriminate|].
  intros H. now rewrite IH.
Qed.

Lemma dict_get_absent {V : Type} (k : pykey) (d : dict V) :
  Forall (fun kv => pykey_eqb (fst kv) k = false) d -> dict_get k d = None.
Proof.
  induction 1 as [|[k' v'] d Hk _ IH]; cbn in *; [reflexivity|].
  now rewrite Hk.
Qed.

Lemma forecast_items_keys s ri un t i n :
  Forall (fun kv => exists u, t <= u < t + Z.of_nat n
                              /\ fst kv = KStr (py_str (factory_clock s + u)))
    (forecast_items s ri un t i n).
Proof.
  revert t i. induction n as [|n IH]; intros t i; cbn [forecast_items].
  - constructor.
  - constructor.
    + exists t. split; [lia|reflexivity].
    + eapply List.Forall_impl; [|apply IH].
      intros kv (u & Hu & E). exists u. split; [lia|exact E].
Qed.

(** A string key is never found under an int key. *)
Lemma forecast_items_no_int_key s ri un t i n (k : Z) :
  dict_get (KInt k) (forecast_items s ri un t i n) = None.
Proof.
  apply dict_get_absent.
  eapply List.Forall_impl; [|apply forecast_items_keys].
  intros [key e] (u & _ & E). cbn in *. now subst key.
Qed.

Lemma forecast_step_eq t (forecast : dict MarketEntry) w :
  forecast_step t forecast w
  = Returned
      (let e := forecast_entry (twin w) (randint_draw (rng w))
                  (uniform_draw (rng w)) t (draws (rng w)) in
       dict_set (fst e) (snd e) forecast)
      (advance (advance w)).
Proof. reflexivity. Qed.

Lemma for_acc_forecast m : forall t0 acc w,
  Forall (fun kv => exists u, u < t0
                              /\ fst kv = KStr (py_str (factory_clock (twin w) + u)))
    acc ->
  for_acc forecast_step (map (fun i => t0 + Z.of_nat i) (seq 0 m)) acc w
  = Returned
      (acc ++ forecast_items (twin w) (randint_draw (rng w)) (uniform_draw (rng w))
                t0 (draws (rng w)) m)
      (advance_by (2 * m) w).
Proof.
  induction m as [|m IH]; intros t0 acc w Hacc.
  - cbn. now rewrite app_nil_r.
  - cbn [seq]. rewrite <- seq_shift. cbn [map for_acc]. rewrite List.map_map.
    replace (t0 + Z.of_nat 0) with t0 by lia.
    erewrite map_ext by (intros i; rewrite Nat2Z.inj_succ;
                         instantiate (1 := fun i => (t0 + 1) + Z.of_nat i);
                         cbn beta; lia).
    rewrite (bind_returned _ _ _ _ _ (forecast_step_eq t0 acc w)).
    cbn zeta. cbn [forecast_entry fst snd].
    rewrite dict_set_fresh.
    2:{ apply dict_get_absent. eapply List.Forall_impl; [|exact Hacc].
        intros [key e] (u & Hu & E). cbn in *. subst key. cbn.
        apply String.eqb_neq. intros E. apply py_str_inj in E. lia. }
    rewrite IH.
    2:{ apply Forall_app. split.
        - eapply List.Forall_impl; [|exact Hacc].
          intros kv (u & Hu & E). exists u. split; [lia|exact E].
        - repeat constructor. exists t0. split; [lia|reflexivity]. }
    cbn [twin rng advance randint_draw uniform_draw draws].
    rewrite <- app_assoc. cbn [app forecast_items].
    f_equal.
    replace (2 * S m)%nat with (S (S (2 * m))) by lia.
    now rewrite <- !advance_by_S.
Qed.

(** [get_market_forecast] always returns, with one entry per offset
    [1..horizon] in that order, after two draws per entry. *)
Lemma get_market_forecast_eq (horizon : Z) (w : World) :
  get_market_forecast horizon w
  = Returned
      (forecast_items (twin w) (randint_draw (rng w)) (uniform_draw (rng w))
         1 (draws (rng w)) (Z.to_nat horizon))
      (advance_by (2 * Z.to_nat horizon) w).
Proof.
  unfold get_market_forecast, py_range.
  replace (horizon + 1 - 1) with horizon by lia.
  rewrite for_acc_forecast by constructor. reflexivity.
Qed.

(** ** Removing a job from the active list *)

Lemma job_eqb_refl (job : Job) : job_eqb job job = true.
Proof.
  unfold job_eqb.
  rewrite String.eqb_refl, !Z.eqb_refl. cbn.
  apply Qeq_bool_iff. reflexivity.
Qed.

Lemma list_remove_In (job : Job) (l : list Job) :
  In job l -> exists l', list_remove job l = Some l'.
Proof.
  induction l as [|y l IH]; cbn; [tauto|].
  intros [-> | Hin].
  - rewrite job_eqb_refl. eauto.
  - destruct (job_eqb y job); [eauto|].
    destruct (IH Hin) as [l' ->]. eauto.
Qed.

(** ** One tick *)

Lemma progress_jobs_eq (l : list Job) :
  progress_jobs l
  = (map decrement l,
     List.filter (fun job => j_duration job <=? 0) (map decrement l)).
Proof.
  induction l as [|job l IH]; [reflexivity|].
  cbn [progress_jobs]. rewrite IH. reflexivity.
Qed.

(** A tick in which no job reaches zero only moves the clock, decrements
    the durations and writes the snapshot. *)
Lemma tick_quiet (w : World) jobs :
  progress_jobs (active_jobs (twin w)) = (jobs, []) ->
  tick w = _log_state (ticked jobs w).
Proof.
  intros H. unfold tick. run_eng. cbn [with_twin twin set_factory_clock active_jobs].
  rewrite H. reflexivity.
Qed.

(** A tick in which some job reaches zero removes the first such job from
    the active list, asks for the forecast and then fails on the lookup:
    the forecast is keyed by strings, the lookup uses an int. *)
Lemma tick_raises (w : World) jobs job rest :
  progress_jobs (active_jobs (twin w)) = (jobs, job :: rest) ->
  exists l,
    list_remove job jobs = Some l
    /\ tick w = Raised (KeyError (KInt (factory_clock (twin w) + 1 + 1)))
                  (advance_by 2 (ticked l w)).
Proof.
  intros H.
  assert (Hin : In job jobs).
  { rewrite progress_jobs_eq in H. injection H as <- Hc.
    assert (Hj : In job (job :: rest)) by (left; reflexivity).
    rewrite <- Hc in Hj. now apply List.filter_In in Hj. }
  destruct (list_remove_In _ _ Hin) as [l Hl]. exists l. split; [exact Hl|].
  unfold tick. run_eng. cbn [with_twin twin set_factory_clock active_jobs].
  rewrite H. cbn [for_each]. run_eng.
  unfold complete_job, remove_active. run_eng.
  cbn [with_twin twin set_active_jobs active_jobs].
  rewrite Hl. cbn [with_twin twin].
  rewrite get_market_forecast_eq.
  unfold getitem. rewrite forecast_items_no_int_key.
  rewrite twin_advance_by. reflexivity.
Qed.

(** [tick] never touches the machine health, whether it returns or raises. *)
Lemma tick_frame (w : World) :
  machine_health (twin (world_of (tick w))) = machine_health (twin w)
  /\ current_shift (twin (world_of (tick w))) = current_shift (twin w)
  /\ job_history (db (world_of (tick w))) = job_history (db w).
Proof.
  destruct (progress_jobs (active_jobs (twin w))) as [jobs [|job rest]] eqn:H.
  - rewrite (tick_quiet _ _ H). unfold _log_state.
    destruct (factory_history (db (ticked jobs w)) !! _); cbn; auto.
  - destruct (tick_raises _ _ _ _ H) as (l & _ & ->).
    cbn [world_of]. rewrite twin_advance_by, db_advance_by. cbn. auto.
Qed.

(** ** Numbers *)

Lemma num_sub_int_val (n : pynum) (k : Z) :
  (num_val (num_sub_int n k) == num_val n - inject_Z k)%Q.
Proof.
  destruct n as [z|q]; cbn; [|reflexivity].
  unfold Z.sub, Qminus. now rewrite inject_Z_plus, inject_Z_opp.
Qed.

Lemma py_max0_val (x : pynum) :
  (num_val (py_max0 x) == Qmax 0 (num_val x))%Q.
Proof.
  unfold py_max0. destruct (Qle_bool (num_val x) 0) eqn:E.
  - apply Qle_bool_iff in E. cbn. symmetry. now apply Q.max_l.
  - symmetry. apply Q.max_r. apply Qlt_le_weak, Qnot_le_lt.
    intros H. apply Qle_bool_iff in H. congruence.
Qed.

Lemma wear_of_pos (shift : string) : 0 < wear_of shift.
Proof. unfold wear_of. destruct (String.eqb shift "DAY"); lia. Qed.

Lemma worn_health_ok (h : pynum) (k : Z) :
  0 < k -> (0 <= num_val h <= 100)%Q ->
  (0 <= num_val (py_max0 (num_sub_int h k)) <= 100)%Q.
Proof.
  intros Hk [H0 H100]. rewrite py_max0_val. split.
  - apply Q.le_max_l.
  - apply Q.max_lub; [discriminate|].
    rewrite num_sub_int_val.
    apply Qle_trans with (num_val h); [|exact H100].
    rewrite <- (Qplus_0_r (num_val h)) at 2. unfold Qminus.
    apply Qplus_le_r. change 0%Q with (- inject_Z 0)%Q.
    apply Qopp_le_compat. rewrite <- Zle_Qle. lia.
Qed.

(** ** What [start_job] does on each of its three paths *)

Lemma start_job_ok (job_id : string) (qty : Z) (w : World) :
  (inject_Z (50 * qty) <= cash_balance (twin w))%Q ->
  (0 < num_val (machine_health (twin w)))%Q ->
  fits_float (50 * qty) = true ->
  start_job job_id qty w
  = Returned ("Job " +:+ job_id +:+ " started. Cost: $" +:+ py_str (50 * qty)
              +:+ ". Est. Duration: 5 ticks.")
      (started_world job_id qty w).
Proof.
  intros Hc Hh Hf. unfold start_job. run_eng.
  apply Qle_bool_iff in Hc. rewrite Hc.
  destruct (Qle_bool (num_val (machine_health (twin w))) 0) eqn:E.
  - apply Qle_bool_iff in E. exfalso. exact (Qlt_not_le _ _ Hh E).
  - rewrite Hf. cbn [negb]. unfold _log_job, started_world.
    cbn [with_twin twin set_cash_balance set_active_jobs set_machine_health
           factory_clock j_start_tick j_cost].
    destruct (fits_int64 (factory_clock (twin w))
              && fits_int64 (factory_clock (twin w))
              && fits_int64 (50 * qty)); reflexivity.
Qed.

(** Past the two guards, a cost too large for a float stops the call at
    the debit, before anything is written. *)
Lemma start_job_overflow (job_id : string) (qty : Z) (w : World) :
  (inject_Z (50 * qty) <= cash_balance (twin w))%Q ->
  (0 < num_val (machine_health (twin w)))%Q ->
  fits_float (50 * qty) = false ->
  start_job job_id qty w = Raised OverflowError w.
Proof.
  intros Hc Hh Hf. unfold start_job. run_eng.
  apply Qle_bool_iff in Hc. rewrite Hc.
  destruct (Qle_bool (num_val (machine_health (twin w))) 0) eqn:E.
  - apply Qle_bool_iff in E. exfalso. exact (Qlt_not_le _ _ Hh E).
  - now rewrite Hf.
Qed.

Lemma start_job_broken (job_id : string) (qty : Z) (w : World) :
  (inject_Z (50 * qty) <= cash_balance (twin w))%Q ->
  (num_val (machine_health (twin w)) <= 0)%Q ->
  start_job job_id qty w = Returned "Machine broken. Cannot start job." w.
Proof.
  intros Hc Hh. unfold start_job. run_eng.
  apply Qle_bool_iff in Hc, Hh. now rewrite Hc, Hh.
Qed.

Lemma start_job_poor (job_id : string) (qty : Z) (w : World) :
  (cash_balance (twin w) < inject_Z (50 * qty))%Q ->
  start_job job_id qty w = Returned "Insufficient funds to start job." w.
Proof.
  intros Hc. unfold start_job. run_eng.
  destruct (Qle_bool (inject_Z (50 * qty)) (cash_balance (twin w))) eqn:E;
    [|reflexivity].
  apply Qle_bool_iff in E. exfalso. exact (Qlt_not_le _ _ Hc E).
Qed.

(** The four paths cover every call. *)
Lemma start_job_cases (job_id : string) (qty : Z) (w : World) :
  start_job job_id qty w = Returned "Insufficient funds to start job." w
  \/ start_job job_id qty w = Returned "Machine broken. Cannot start job." w
  \/ start_job job_id qty w = Raised OverflowError w
  \/ ((inject_Z (50 * qty) <= cash_balance (twin w))%Q
      /\ (0 < num_val (machine_health (twin w)))%Q
      /\ start_job job_id qty w
         = Returned ("Job " +:+ job_id +:+ " started. Cost: $"
                     +:+ py_str (50 * qty) +:+ ". Est. Duration: 5 ticks.")
             (started_world job_id qty w)).
Proof.
  destruct (Qlt_le_dec (cash_balance (twin w)) (inject_Z (50 * qty))) as [Hc|Hc].
  - left. now apply start_job_poor.
  - destruct (Qlt_le_dec 0 (num_val (machine_health (twin w)))) as [Hh|Hh].
    + destruct (fits_float (50 * qty)) eqn:Hf.
      * right. right. right. repeat split; try assumption.
        now apply start_job_ok.
      * right. right. left. now apply start_job_overflow.
    + right. left. now apply start_job_broken.
Qed.

Lemma repair_machine_ok (w : World) :
  (200 <= cash_balance (twin w))%Q ->
  repair_machine w
  = Returned "Machine repaired. Cost: $200. Health: 100%."
      (with_twin (fun s => set_machine_health (PyFloat 100)
                             (set_cash_balance (cash_balance s - 200) s)) w).
Proof.
  intros Hc. unfold repair_machine. run_eng.
  apply Qle_bool_iff in Hc. change (inject_Z 200) with 200%Q. rewrite Hc.
  reflexivity.
Qed.

Lemma repair_machine_poor (w : World) :
  (cash_balance (twin w) < 200)%Q ->
  repair_machine w = Returned "Insufficient funds for repair." w.
Proof.
  intros Hc. unfold repair_machine. run_eng.
  change (inject_Z 200) with 200%Q.
  destruct (Qle_bool 200 (cash_balance (twin w))) eqn:E; [|reflexivity].
  apply Qle_bool_iff in E. exfalso. exact (Qlt_not_le _ _ Hc E).
Qed.

Lemma change_shift_ok (new_shift : string) (w : World) :
  new_shift = "DAY"%string \/ new_shift = "NIGHT"%string ->
  change_shift new_shift w
  = Returned ("Shift changed to " +:+ new_shift +:+ ".")
      (with_twin (set_current_shift new_shift) w).
Proof. intros [-> | ->]; reflexivity. Qed.

Lemma change_shift_invalid (new_shift : string) (w : World) :
  new_shift <> "DAY"%string -> new_shift <> "NIGHT"%string ->
  change_shift new_shift w = Returned "Invalid shift. Use DAY or NIGHT." w.
Proof.
  intros Hd Hn. unfold change_shift. cbn [existsb].
  apply String.eqb_neq in Hd, Hn. now rewrite Hd, Hn.
Qed.

(** ** What [cancel_job] does *)

Lemma find_job_split (job_id : string) (l : list Job) (job : Job) :
  find_job job_id l = Some job ->
  exists l1 l2, l = l1 ++ job :: l2 /\ j_id job = job_id
                /\ List.Forall (fun j => j_id j <> job_id) l1.
Proof.
  induction l as [|y l IH]; cbn; [discriminate|].
  destruct (String.eqb (j_id y) job_id) eqn:E.
  - intros [= ->]. apply String.eqb_eq in E.
    exists [], l. repeat split; [exact E | constructor].
  - intros H. destruct (IH H) as (l1 & l2 & -> & Hid & Hl1).
    exists (y :: l1), l2. repeat split; [exact Hid|].
    constructor; [now apply String.eqb_neq | exact Hl1].
Qed.

Lemma find_job_first (job_id : string) (l1 l2 : list Job) (job : Job) :
  List.Forall (fun j => j_id j <> job_id) l1 -> j_id job = job_id ->
  find_job job_id (l1 ++ job :: l2) = Some job.
Proof.
  intros Hl1 Hid. induction Hl1 as [|y l1 Hy _ IH]; cbn.
  - apply String.eqb_eq in Hid. now rewrite Hid.
  - apply String.eqb_neq in Hy. now rewrite Hy.
Qed.

Lemma find_job_none (job_id : string) (l : list Job) :
  (forall job, In job l -> j_id job <> job_id) -> find_job job_id l = None.
Proof.
  induction l as [|y l IH]; cbn; [reflexivity|]. intros H.
  assert (Hy : j_id y <> job_id) by (apply H; now left).
  apply String.eqb_neq in Hy. rewrite Hy. apply IH. intros job Hin.
  apply H. now right.
Qed.

(** When some job carries the id, the search stops at the first one. *)
Lemma first_job_with_id (job_id : string) (l : list Job) :
  (exists job, In job l /\ j_id job = job_id) ->
  exists l1 job l2, l = l1 ++ job :: l2 /\ j_id job = job_id
                    /\ List.Forall (fun j => j_id j <> job_id) l1.
Proof.
  intros (job0 & Hin & Hid0).
  destruct (find_job job_id l) as [job|] eqn:E.
  - destruct (find_job_split _ _ _ E) as (l1 & l2 & Hl & Hid & Hl1).
    now exists l1, job, l2.
  - exfalso. induction l as [|y l IH]; [destruct Hin|].
    cbn in E. destruct (String.eqb (j_id y) job_id) eqn:Ey; [discriminate|].
    destruct Hin as [-> | Hin]; [|now apply IH].
    apply String.eqb_neq in Ey. congruence.
Qed.

(** [remove] takes out the job the search stopped at: every job before it
    has another id, hence is not equal to it. *)
Lemma list_remove_first (l1 l2 : list Job) (job : Job) :
  List.Forall (fun j => j_id j <> j_id job) l1 ->
  list_remove job (l1 ++ job :: l2) = Some (l1 ++ l2).
Proof.
  induction 1 as [|y l1 Hy _ IH]; cbn.
  - now rewrite job_eqb_refl.
  - unfold job_eqb at 1. apply String.eqb_neq in Hy. rewrite Hy. cbn.
    now rewrite IH.
Qed.

Lemma cancel_job_found (job_id : string) (w : World) l1 job l2 :
  active_jobs (twin w) = l1 ++ job :: l2 ->
  j_id job = job_id ->
  List.Forall (fun j => j_id j <> job_id) l1 ->
  cancel_job job_id w
  = Returned ("Job " +:+ job_id +:+ " cancelled.")
      (cancelled_world job (l1 ++ l2) w).
Proof.
  intros Hl Hid Hl1. unfold cancel_job, remove_active. run_eng.
  rewrite Hl, (find_job_first _ _ _ _ Hl1 Hid).
  rewrite Hl, list_remove_first by now rewrite Hid.
  unfold _log_job, cancelled_world.
  cbn [with_twin twin set_active_jobs factory_clock].
  destruct (fits_int64 (j_start_tick job)
            && fits_int64 (factory_clock (twin w))
            && fits_int64 (j_cost job)); reflexivity.
Qed.

Lemma cancel_job_missing (job_id : string) (w : World) :
  (forall job, In job (active_jobs (twin w)) -> j_id job <> job_id) ->
  cancel_job job_id w = Returned "Job not found." w.
Proof.
  intros H. unfold cancel_job. run_eng. now rewrite find_job_none.
Qed.

(** Either way [cancel_job] returns and leaves the health alone. *)
Lemma cancel_job_frame (job_id : string) (w : World) :
  raised (cancel_job job_id w) = None
  /\ machine_health (twin (world_of (cancel_job job_id w)))
     = machine_health (twin w)
  /\ cash_balance (twin (world_of (cancel_job job_id w)))
     = cash_balance (twin w).
Proof.
  destruct (find_job job_id (active_jobs (twin w))) as [job|] eqn:E.
  - destruct (find_job_split _ _ _ E) as (l1 & l2 & Hl & Hid & Hl1).
    rewrite (cancel_job_found _ _ _ _ _ Hl Hid Hl1). cbn. auto.
  - unfold cancel_job. run_eng. rewrite E. cbn. auto.
Qed.

(** While every job has more than one tick left, a tick is quiet. *)
Lemma tick_all_running (w : World) :
  (forall job, In job (active_jobs (twin w)) -> 1 < j_duration job) ->
  tick w = _log_state (ticked (map decrement (active_jobs (twin w))) w).
Proof.
  intros Hrun. apply tick_quiet. rewrite progress_jobs_eq. f_equal.
  induction (active_jobs (twin w)) as [|job l IH]; [reflexivity|].
  cbn [map List.filter].
  assert (Hj : 1 < j_duration job) by (apply Hrun; now left).
  replace (j_duration (decrement job) <=? 0) with false
    by (symmetry; apply Z.leb_gt; cbn; lia).
  apply IH. intros j Hin. apply Hrun. now right.
Qed.

Lemma _log_state_frame (w : World) :
  raised (_log_state w) = None
  /\ twin (world_of (_log_state w)) = twin w
  /\ job_history (db (world_of (_log_state w))) = job_history (db w)
  /\ rng (world_of (_log_state w)) = rng w.
Proof.
  unfold _log_state. destruct (factory_history (db w) !! _); cbn; auto.
Qed.

(** ** Number ranges *)

Lemma small_fits (n : Z) :
  Z.abs n <= 2 ^ 53 -> fits_float n = true /\ fits_int64 n = true.
Proof.
  intros H.
  assert (H1 : 2 ^ 53 < 2 ^ 1024 - 2 ^ 970) by (vm_compute; reflexivity).
  assert (H2 : 2 ^ 53 < 2 ^ 63) by (vm_compute; reflexivity).
  unfold fits_float, fits_int64. split.
  - apply Z.ltb_lt. lia.
  - apply andb_true_intro. split; [apply Z.leb_le | apply Z.ltb_lt]; lia.
Qed.

Lemma whole_sub (x : Q) (a b : Z) :
  (x == inject_Z a)%Q -> (x - inject_Z b == inject_Z (a - b))%Q.
Proof.
  intros ->. unfold Z.sub, Qminus. now rewrite inject_Z_plus, inject_Z_opp.
Qed.

Lemma worn_whole (x : Q) (h k : Z) :
  (x == inject_Z h)%Q ->
  (Qmax 0 (x - inject_Z k) == inject_Z (Z.max 0 (h - k)))%Q.
Proof.
  intros Hx. rewrite (whole_sub _ _ k Hx).
  destruct (Z.max_spec 0 (h - k)) as [[Hlt ->] | [Hle ->]].
  - apply Q.max_r. change 0%Q with (inject_Z 0). rewrite <- Zle_Qle. lia.
  - apply Q.max_l. change 0%Q with (inject_Z 0). rewrite <- Zle_Qle. lia.
Qed.

(** ** Strings *)

Lemma append_assoc (a b c : string) : (a +:+ b) +:+ c = a +:+ b +:+ c.
Proof.
  induction a as [|x a IH]; [reflexivity|].
  change (String x ((a +:+ b) +:+ c) = String x (a +:+ b +:+ c)).
  now rewrite IH.
Qed.

Lemma append_empty_r (a : string) : a +:+ "" = a.
Proof.
  induction a as [|x a IH]; [reflexivity|].
  change (String x (a +:+ "") = String x a). now rewrite IH.
Qed.

(** ** Truncation and rounding of reals *)

Lemma Int_part_bounds (x : R) : (IZR (Int_part x) <= x < IZR (Int_part x) + 1)%R.
Proof. destruct (base_Int_part x) as [H1 H2]. lra. Qed.


Lemma py_int_nonneg (x : R) :
  (0 <= x)%R -> (IZR (py_int x) <= x < IZR (py_int x) + 1)%R.
Proof.
  intros H. unfold py_int. destruct (Rle_dec 0 x); [|contradiction].
  apply Int_part_bounds.
Qed.

Lemma py_int_neg (x : R) :
  (x < 0)%R -> (x <= IZR (py_int x) < x + 1)%R.
Proof.
  intros H. unfold py_int. destruct (Rle_dec 0 x); [lra|].
  rewrite opp_IZR. pose proof (Int_part_bounds (- x)). lra.
Qed.







(** ** The entries of a forecast *)

Lemma forecast_items_length s ri un t i n :
  length (forecast_items s ri un t i n) = n.
Proof.
  revert t i. induction n as [|n IH]; intros t i; cbn; [reflexivity|].
  now rewrite IH.
Qed.

Lemma forecast_items_nth s ri un n : forall t i k,
  (k < n)%nat ->
  nth_error (forecast_items s ri un t i n) k
  = Some (forecast_entry s ri un (t + Z.of_nat k) (i + 2 * k)).
Proof.
  induction n as [|n IH]; intros t i k Hk; [lia|].
  destruct k as [|k]; cbn [forecast_items nth_error].
  - do 2 f_equal; lia.
  - rewrite IH by lia. do 2 f_equal; lia.
Qed.

Lemma forecast_items_fst s ri un n : forall t i,
  map fst (forecast_items s ri un t i n)
  = map (fun u => KStr (py_str (factory_clock s + u)))
      (map (fun k => t + Z.of_nat k) (seq 0 n)).
Proof.
  induction n as [|n IH]; intros t i; [reflexivity|].
  cbn [forecast_items map seq]. rewrite IH, <- seq_shift, !List.map_map.
  f_equal.
  - cbn. do 3 f_equal. lia.
  - apply map_ext. intros k. do 3 f_equal. lia.
Qed.

Lemma forecast_keys_NoDup (clock t : Z) (n : nat) :
  List.NoDup (map (fun u => KStr (py_str (clock + u)))
                (map (fun k => t + Z.of_nat k) (seq 0 n))).
Proof.
  rewrite List.map_map. apply Finite.Injective_map_NoDup; [|apply seq_NoDup].
  intros a b E. injection E as E. apply py_str_inj in E. lia.
Qed.



(** ** The claims *)

(** When a running job reaches zero, [tick] has moved the clock and taken
    the job off the active list, but the spot price is looked up under the
    int key [factory_clock + 1] in a forecast keyed by strings: the call
    raises [KeyError] before cash, inventory or the job record are touched,
    and no snapshot is written. *)
Lemma tick_completion_raises (w : World) :
  (exists job, In job (active_jobs (twin w)) /\ j_duration job <= 1) ->
  raised (tick w) = Some (KeyError (KInt (factory_clock (twin w) + 2)))
  /\ factory_clock (twin (world_of (tick w))) = factory_clock (twin w) + 1
  /\ inventory (twin (world_of (tick w))) = inventory (twin w)
  /\ cash_balance (twin (world_of (tick w))) = cash_balance (twin w)
  /\ db (world_of (tick w)) = db w
  /\ length (active_jobs (twin (world_of (tick w))))
     = pred (length (active_jobs (twin w))).
Proof.
  intros (job & Hin & Hd).
  destruct (progress_jobs (active_jobs (twin w))) as [jobs [|c rest]] eqn:H.
  - exfalso. rewrite progress_jobs_eq in H. injection H as _ Hf.
    assert (Hc : In (decrement job)
                   (List.filter (fun job => j_duration job <=? 0)
                      (map decrement (active_jobs (twin w))))).
    { apply List.filter_In. split; [now apply in_map|].
      cbn. apply Z.leb_le. lia. }
    rewrite Hf in Hc. destruct Hc.
  - destruct (tick_raises _ _ _ _ H) as (l & Hl & ->).
    cbn [raised world_of]. rewrite twin_advance_by, db_advance_by.
    replace (factory_clock (twin w) + 1 + 1) with (factory_clock (twin w) + 2)
      by lia.
    repeat split.
    rewrite progress_jobs_eq in H. injection H as <- _.
    cbn [ticked with_twin twin set_active_jobs active_jobs].
    rewrite <- (length_map decrement (active_jobs (twin w))).
    clear -Hl. revert l Hl.
    induction (map decrement (active_jobs (twin w))) as [|y m IH]; cbn;
      intros l Hl; [discriminate|].
    destruct (job_eqb y c); [now injection Hl as <-|].
    destruct (list_remove c m) as [m'|] eqn:E; [|discriminate].
    injection Hl as <-. cbn. rewrite (IH _ eq_refl).
    destruct m; [discriminate|reflexivity].
Qed.

(** C1 (the code departs from the claim): from Scenario A, four ticks bring
    the job to one remaining tick; the fifth tick raises [KeyError(6)]
    instead of completing it.  The job has left the active list, but the
    inventory is still 0, the cash still 500, the job row still says
    STARTED and no snapshot for tick 5 exists. *)
Theorem C1_fifth_tick_raises :
  let w4 := run [Tick; Tick; Tick; Tick] scenario_A in
  let w5 := world_of (tick w4) in
  raised (tick w4) = Some (KeyError (KInt 6))
  /\ factory_clock (twin w5) = 5
  /\ active_jobs (twin w5) = []
  /\ inventory (twin w5) = 0
  /\ cash_balance (twin w5) = 500%Q
  /\ job_history (db w5) !! "O1"%string
     = Some {| r_start_tick := 0; r_end_tick := 0; r_status := "STARTED";
               r_revenue := 0; r_cost := 500 |}
  /\ factory_history (db w5) !! 5 = None.
Proof.
  set (job := {| j_id := "O1"; j_qty := 10; j_start_tick := 0;
                 j_duration := 0; j_cost := 500; j_revenue := 0 |}).
  assert (H : progress_jobs
                (active_jobs (twin (run [Tick; Tick; Tick; Tick] scenario_A)))
              = ([job], [job])) by (vm_compute; reflexivity).
  destruct (tick_raises _ _ _ _ H) as (l & Hl & Ht).
  vm_compute in Hl. injection Hl as <-.
  cbv zeta. rewrite Ht. cbn [raised world_of].
  rewrite twin_advance_by, db_advance_by.
  repeat split; vm_compute; reflexivity.
Qed.

(** Every call keeps the health between 0 and 100. *)
Lemma exec_health_ok (c : Command) (w : World) :
  health_ok w -> health_ok (exec c w).
Proof.
  unfold health_ok. intros Hw.
  destruct c as [job_id qty|job_id| |new_shift| | | |horizon|cat descr];
    cbn [exec].
  - destruct (start_job_cases job_id qty w) as [-> | [-> | [-> | (_ & _ & ->)]]];
      cbn [world_of]; try exact Hw.
    cbn [started_world twin machine_health].
    apply worn_health_ok; [apply wear_of_pos | exact Hw].
  - destruct (cancel_job_frame job_id w) as (_ & -> & _). exact Hw.
  - destruct (Qlt_le_dec (cash_balance (twin w)) 200) as [Hc|Hc].
    + now rewrite repair_machine_poor.
    + rewrite repair_machine_ok by exact Hc. cbn. split; discriminate.
  - unfold change_shift.
    destruct (existsb (String.eqb new_shift) ["DAY"%string; "NIGHT"%string]);
      exact Hw.
  - destruct (tick_frame w) as (-> & _). exact Hw.
  - exact Hw.
  - exact Hw.
  - rewrite get_market_forecast_eq. cbn [world_of].
    now rewrite twin_advance_by.
  - exact Hw.
Qed.

(** C2: in every world reachable from a new [FactoryState] by any calls,
    [0 <= machine_health <= 100]; the health starts at 100, a started job
    (one whose cost the debit can convert to a float, so that the call
    gets as far as the wear) leaves [max(0, health - wear)], and a paid
    repair leaves exactly 100. *)
Theorem C2_machine_health_bounds (w : World) :
  reachable w ->
  health_ok w
  /\ (forall d g, machine_health (twin (FactoryState_init d g)) = PyFloat 100)
  /\ (forall job_id qty,
        (inject_Z (50 * qty) <= cash_balance (twin w))%Q ->
        (0 < num_val (machine_health (twin w)))%Q ->
        fits_float (50 * qty) = true ->
        (num_val (machine_health (twin (exec (StartJob job_id qty) w)))
         == Qmax 0 (num_val (machine_health (twin w))
                    - inject_Z (wear_of (current_shift (twin w)))))%Q)
  /\ ((200 <= cash_balance (twin w))%Q ->
      machine_health (twin (exec RepairMachine w)) = PyFloat 100).
Proof.
  intros Hr. split; [|split; [|split]].
  - induction Hr as [d g|c w Hr IH].
    + cbn. split; discriminate.
    + now apply exec_health_ok.
  - reflexivity.
  - intros job_id qty Hc Hh Hf. cbn [exec].
    rewrite start_job_ok by assumption.
    cbn [world_of started_world twin machine_health].
    now rewrite py_max0_val, num_sub_int_val.
  - intros Hc. cbn [exec]. now rewrite repair_machine_ok.
Qed.

Lemma C2_witness :
  let w := run [StartJob "O1" 10; Tick; ChangeShift "NIGHT"; StartJob "O2" 1]
             fresh in
  reachable w
  /\ (inject_Z (50 * 1) <= cash_balance (twin w))%Q
  /\ (0 < num_val (machine_health (twin w)))%Q
  /\ fits_float (50 * 1) = true
  /\ (200 <= cash_balance (twin w))%Q
  /\ health_ok w
  /\ (num_val (machine_health (twin w)) == 87)%Q
  /\ (num_val (machine_health (twin (exec (StartJob "O3" 1) w))) == 79)%Q
  /\ machine_health (twin (exec RepairMachine w)) = PyFloat 100.
Proof.
  intros w.
  assert (Hr : reachable w).
  { subst w. cbn [run fold_left]. repeat apply reachable_exec.
    apply reachable_init. }
  assert (Hc : (inject_Z (50 * 1) <= cash_balance (twin w))%Q)
    by (vm_compute; discriminate).
  assert (Hh : (0 < num_val (machine_health (twin w)))%Q)
    by (vm_compute; reflexivity).
  assert (Hf : fits_float (50 * 1) = true) by (vm_compute; reflexivity).
  assert (Hc2 : (200 <= cash_balance (twin w))%Q) by (vm_compute; discriminate).
  destruct (C2_machine_health_bounds w Hr) as (Hok & _ & Hstart & Hrep).
  repeat (split; [assumption|]).
  split; [vm_compute; reflexivity|].
  split; [|exact (Hrep Hc2)].
  rewrite (Hstart "O3"%string 1 Hc Hh Hf). vm_compute. reflexivity.
Defined.

(** C3 as stated fails for large quantities: the row of a job whose cost
    does not fit a 64-bit integer cannot be stored.  On a new factory
    [start_job("X", -2^63)] passes both guards and confirms, yet
    [job_history] has no row for "X" afterwards. *)
Lemma C3_counterexample :
  (inject_Z (50 * - 2 ^ 63) <= cash_balance (twin fresh))%Q
  /\ (0 < num_val (machine_health (twin fresh)))%Q
  /\ exists msg w',
       start_job "X" (- 2 ^ 63) fresh = Returned msg w'
       /\ job_history (db w') !! "X"%string = None.
Proof.
  split; [vm_compute; discriminate|]. split; [vm_compute; reflexivity|].
  eexists _, (world_of (start_job "X" (- 2 ^ 63) fresh)).
  split; vm_compute; reflexivity.
Qed.

(** C3, amended: take a state whose cash and health are whole numbers,
    with the cash, the cost [50 * qty] and their difference at most [2^53]
    in magnitude and the clock within the 64-bit range.  With
    [cash >= 50 * qty] and [health > 0], [start_job] debits exactly
    [50 * qty], appends one job of duration 5 at the end of the active
    list, wears the machine by 5 on DAY and 8 on NIGHT (not below 0),
    upserts a STARTED row and returns a message naming the job id and the
    cost; on a new factory, [start_job("O1", 10)] leaves cash 500, health
    95 and one active job of duration 5. *)
Theorem C3_start_job_success :
  (forall (w : World) (job_id : string) (qty cash health : Z),
      whole (cash_balance (twin w)) cash ->
      whole (num_val (machine_health (twin w))) health ->
      Z.abs (50 * qty) <= 2 ^ 53 ->
      Z.abs (cash - 50 * qty) <= 2 ^ 53 ->
      fits_int64 (factory_clock (twin w)) = true ->
      50 * qty <= cash ->
      0 < health ->
      exists msg w',
        start_job job_id qty w = Returned msg w'
        /\ cash_balance (twin w') = (cash_balance (twin w) - inject_Z (50 * qty))%Q
        /\ whole (cash_balance (twin w')) (cash - 50 * qty)
        /\ active_jobs (twin w')
           = active_jobs (twin w)
               ++ [{| j_id := job_id; j_qty := qty;
                      j_start_tick := factory_clock (twin w); j_duration := 5;
                      j_cost := 50 * qty; j_revenue := 0 |}]
        /\ (current_shift (twin w) = "DAY"%string ->
            (num_val (machine_health (twin w'))
             == inject_Z (Z.max 0 (health - 5)))%Q)
        /\ (current_shift (twin w) = "NIGHT"%string ->
            (num_val (machine_health (twin w'))
             == inject_Z (Z.max 0 (health - 8)))%Q)
        /\ job_history (db w') !! job_id
           = Some {| r_start_tick := factory_clock (twin w);
                     r_end_tick := factory_clock (twin w);
                     r_status := "STARTED"; r_revenue := 0;
                     r_cost := 50 * qty |}
        /\ contains job_id msg /\ contains (py_str (50 * qty)) msg
        /\ inventory (twin w') = inventory (twin w)
        /\ factory_clock (twin w') = factory_clock (twin w)
        /\ current_shift (twin w') = current_shift (twin w)
        /\ factory_history (db w') = factory_history (db w)
        /\ rng w' = rng w)
  /\ (exists w',
        start_job "O1" 10 fresh
        = Returned "Job O1 started. Cost: $500. Est. Duration: 5 ticks." w'
        /\ cash_balance (twin w') = 500%Q
        /\ machine_health (twin w') = PyFloat 95
        /\ active_jobs (twin w')
           = [{| j_id := "O1"; j_qty := 10; j_start_tick := 0; j_duration := 5;
                 j_cost := 500; j_revenue := 0 |}]).
Proof.
  split.
  - intros w job_id qty cash health [Hcash Hcb] [Hhealth Hhb] Hq Hd Hclk
      Hfunds Hpos.
    destruct (small_fits _ Hq) as [Hff Hf64].
    assert (Hc : (inject_Z (50 * qty) <= cash_balance (twin w))%Q)
      by (rewrite Hcash, <- Zle_Qle; exact Hfunds).
    assert (Hh : (0 < num_val (machine_health (twin w)))%Q)
      by (rewrite Hhealth; change 0%Q with (inject_Z 0);
          rewrite <- Zlt_Qlt; exact Hpos).
    assert (Hwear : forall k,
               (Qmax 0 (num_val (machine_health (twin w)) - inject_Z k)
                == inject_Z (Z.max 0 (health - k)))%Q).
    { intros k. rewrite (whole_sub _ _ k Hhealth).
      destruct (Z.max_spec 0 (health - k)) as [[Hlt ->] | [Hle ->]].
      - apply Q.max_r. change 0%Q with (inject_Z 0). rewrite <- Zle_Qle. lia.
      - apply Q.max_l. change 0%Q with (inject_Z 0). rewrite <- Zle_Qle. lia. }
    eexists _, _. split; [now apply start_job_ok|].
    unfold started_world. rewrite Hclk, Hf64. cbn [andb].
    cbn [twin db cash_balance active_jobs machine_health
           job_history inventory factory_clock current_shift factory_history rng].
    split; [reflexivity|].
    split; [split; [now apply whole_sub | exact Hd]|].
    split; [reflexivity|].
    split.
    { intros Hs. rewrite py_max0_val, num_sub_int_val.
      unfold wear_of. rewrite Hs. apply Hwear. }
    split.
    { intros Hs. rewrite py_max0_val, num_sub_int_val.
      unfold wear_of. rewrite Hs. apply Hwear. }
    split; [apply lookup_insert_eq|].
    split; [exists "Job "%string; eexists; reflexivity|].
    split.
    { exists ("Job " +:+ job_id +:+ " started. Cost: $"). eexists.
      now rewrite !append_assoc. }
    repeat split.
  - exists (world_of (start_job "O1" 10 fresh)).
    repeat split; vm_compute; reflexivity.
Qed.

Lemma C3_witness :
  let night := exec (ChangeShift "NIGHT") fresh in
  whole (cash_balance (twin night)) 1000
  /\ whole (num_val (machine_health (twin night))) 100
  /\ Z.abs (50 * 10) <= 2 ^ 53
  /\ Z.abs (1000 - 50 * 10) <= 2 ^ 53
  /\ fits_int64 (factory_clock (twin night)) = true
  /\ 50 * 10 <= 1000
  /\ 0 < 100
  /\ current_shift (twin night) = "NIGHT"%string
  /\ exists msg w',
       start_job "O2" 10 night = Returned msg w'
       /\ (num_val (machine_health (twin w')) == 92)%Q
       /\ whole (cash_balance (twin w')) 500.
Proof.
  intros night.
  assert (H1 : whole (cash_balance (twin night)) 1000)
    by (split; [reflexivity | vm_compute; discriminate]).
  assert (H2 : whole (num_val (machine_health (twin night))) 100)
    by (split; [reflexivity | vm_compute; discriminate]).
  assert (H3 : Z.abs (50 * 10) <= 2 ^ 53) by (vm_compute; discriminate).
  assert (H4 : Z.abs (1000 - 50 * 10) <= 2 ^ 53) by (vm_compute; discriminate).
  assert (H5 : fits_int64 (factory_clock (twin night)) = true) by reflexivity.
  assert (H6 : 50 * 10 <= 1000) by lia.
  assert (H7 : 0 < 100) by lia.
  assert (H8 : current_shift (twin night) = "NIGHT"%string) by reflexivity.
  repeat (split; [assumption|]).
  destruct (proj1 C3_start_job_success night "O2"%string 10 1000 100
              H1 H2 H3 H4 H5 H6 H7)
    as (msg & w' & Hs & _ & Hw & _ & _ & Hn & _).
  exists msg, w'. split; [exact Hs|]. split; [|exact Hw].
  rewrite (Hn H8). reflexivity.
Defined.


(** C5: a failed domain rule is answered with a message, not an exception,
    and the world (twin, tables, generator) is exactly the one before the
    call: [start_job] short of cash or with a broken machine,
    [repair_machine] short of cash, [change_shift] with an unknown shift. *)
Theorem C5_rejections_leave_state (w : World) :
  (forall job_id qty,
      (cash_balance (twin w) < inject_Z (50 * qty))%Q ->
      start_job job_id qty w = Returned "Insufficient funds to start job." w)
  /\ (forall job_id qty,
        (num_val (machine_health (twin w)) <= 0)%Q ->
        (inject_Z (50 * qty) <= cash_balance (twin w))%Q ->
        start_job job_id qty w = Returned "Machine broken. Cannot start job." w)
  /\ (forall job_id qty,
        (num_val (machine_health (twin w)) <= 0)%Q ->
        exists msg,
          start_job job_id qty w = Returned msg w
          /\ (msg = "Insufficient funds to start job."%string
              \/ msg = "Machine broken. Cannot start job."%string))
  /\ ((cash_balance (twin w) < 200)%Q ->
      repair_machine w = Returned "Insufficient funds for repair." w)
  /\ (forall new_shift,
        new_shift <> "DAY"%string -> new_shift <> "NIGHT"%string ->
        change_shift new_shift w
        = Returned "Invalid shift. Use DAY or NIGHT." w).
Proof.
  split; [|split; [|split; [|split]]].
  - intros job_id qty Hc. now apply start_job_poor.
  - intros job_id qty Hh Hc. now apply start_job_broken.
  - intros job_id qty Hh.
    destruct (Qlt_le_dec (cash_balance (twin w)) (inject_Z (50 * qty))) as [Hc|Hc].
    + eexists. split; [now apply start_job_poor | now left].
    + eexists. split; [now apply start_job_broken | now right].
  - apply repair_machine_poor.
  - intros new_shift. apply change_shift_invalid.
Qed.

Lemma C5_witness :
  (cash_balance (twin broke) < inject_Z (50 * 10))%Q
  /\ (num_val (machine_health (twin broke)) <= 0)%Q
  /\ (inject_Z (50 * 2) <= cash_balance (twin broke))%Q
  /\ (cash_balance (twin broke) < 200)%Q
  /\ "SIDEWAYS"%string <> "DAY"%string
  /\ "SIDEWAYS"%string <> "NIGHT"%string
  /\ repair_machine broke = Returned "Insufficient funds for repair." broke
  /\ start_job "O1" 10 broke = Returned "Insufficient funds to start job." broke
  /\ start_job "O1" 2 broke = Returned "Machine broken. Cannot start job." broke
  /\ (exists msg, start_job "O1" 1 broke = Returned msg broke)
  /\ change_shift "SIDEWAYS" broke
     = Returned "Invalid shift. Use DAY or NIGHT." broke.
Proof.
  assert (Hp : (cash_balance (twin broke) < inject_Z (50 * 10))%Q)
    by (vm_compute; reflexivity).
  assert (Hb : (num_val (machine_health (twin broke)) <= 0)%Q)
    by (vm_compute; discriminate).
  assert (Hc : (inject_Z (50 * 2) <= cash_balance (twin broke))%Q)
    by (vm_compute; discriminate).
  assert (Hr : (cash_balance (twin broke) < 200)%Q) by (vm_compute; reflexivity).
  assert (Hd : "SIDEWAYS"%string <> "DAY"%string) by discriminate.
  assert (Hn : "SIDEWAYS"%string <> "NIGHT"%string) by discriminate.
  destruct (C5_rejections_leave_state broke) as (H1 & H2 & H3 & H4 & H5).
  repeat (split; [assumption|]).
  split; [exact (H4 Hr)|]. split; [exact (H1 "O1"%string 10 Hp)|].
  split; [exact (H2 "O1"%string 2 Hb Hc)|]. split.
  - destruct (H3 "O1"%string 1 Hb) as (msg & Hm & _). now exists msg.
  - exact (H5 "SIDEWAYS"%string Hd Hn).
Defined.




(** C7 (the code departs from the claim): the tool [get_status] is
    declared to return a dictionary and the test suite indexes its result
    by field, but [FactoryState.get_status] builds one line of text,
    "Tick: .. | Shift: .. | Cash: $.. | Inventory: .. | Health: ..% |
    Active Jobs: ..", and the tool passes that string on unchanged: its
    value is never a mapping.  The text carries the clock, the shift, the
    cash with two decimals, the inventory, the health and the number of
    active jobs; the world is not modified. *)
Theorem C7_get_status_text (w : World) :
  get_status w = Returned (status_text (twin w)) w
  /\ AFMTools.get_status w = Returned (VStr (status_text (twin w))) w
  /\ (forall items w', AFMTools.get_status w <> Returned (VDict items) w')
  /\ exec GetStatus w = w
  /\ contains (py_str (factory_clock (twin w))) (status_text (twin w))
  /\ contains (current_shift (twin w)) (status_text (twin w))
  /\ contains (fmt_2f (cash_balance (twin w))) (status_text (twin w))
  /\ contains (py_str (inventory (twin w))) (status_text (twin w))
  /\ contains (py_str_num (machine_health (twin w))) (status_text (twin w))
  /\ contains (py_str (Z.of_nat (length (active_jobs (twin w)))))
       (status_text (twin w))
  /\ status_text (twin fresh)
     = "Tick: 0 | Shift: DAY | Cash: $1000.00 | Inventory: 0 | Health: 100.0% | Active Jobs: 0"%string
  /\ status_text (twin scenario_A)
     = "Tick: 0 | Shift: DAY | Cash: $500.00 | Inventory: 0 | Health: 95.0% | Active Jobs: 1"%string.
Proof.
  set (s := twin w).
  split; [reflexivity|]. split; [reflexivity|].
  split; [intros items w' H; discriminate H|]. split; [reflexivity|].
  unfold status_text.
  split.
  { exists "Tick: "%string. eexists. reflexivity. }
  split.
  { exists ("Tick: " +:+ py_str (factory_clock s) +:+ " | Shift: "). eexists.
    rewrite !append_assoc. reflexivity. }
  split.
  { exists ("Tick: " +:+ py_str (factory_clock s) +:+ " | Shift: "
            +:+ current_shift s +:+ " | Cash: $"). eexists.
    rewrite !append_assoc. reflexivity. }
  split.
  { exists ("Tick: " +:+ py_str (factory_clock s) +:+ " | Shift: "
            +:+ current_shift s +:+ " | Cash: $" +:+ fmt_2f (cash_balance s)
            +:+ " | Inventory: "). eexists.
    rewrite !append_assoc. reflexivity. }
  split.
  { exists ("Tick: " +:+ py_str (factory_clock s) +:+ " | Shift: "
            +:+ current_shift s +:+ " | Cash: $" +:+ fmt_2f (cash_balance s)
            +:+ " | Inventory: " +:+ py_str (inventory s) +:+ " | Health: ").
    eexists. rewrite !append_assoc. reflexivity. }
  split.
  { exists ("Tick: " +:+ py_str (factory_clock s) +:+ " | Shift: "
            +:+ current_shift s +:+ " | Cash: $" +:+ fmt_2f (cash_balance s)
            +:+ " | Inventory: " +:+ py_str (inventory s) +:+ " | Health: "
            +:+ py_str_num (machine_health s) +:+ "% | Active Jobs: ").
    exists ""%string. rewrite !append_assoc, append_empty_r. reflexivity. }
  split; reflexivity.
Qed.

(** C8 as stated fails for very large negative quantities: the debit
    converts the cost to a float, and [start_job("R", -10^400)] on a new
    factory passes the funds test and then raises [OverflowError] instead
    of confirming; nothing is queued. *)
Lemma C8_counterexample :
  - 10 ^ 400 <= 0
  /\ (0 < num_val (machine_health (twin fresh)))%Q
  /\ (0 <= cash_balance (twin fresh))%Q
  /\ start_job "R" (- 10 ^ 400) fresh = Raised OverflowError fresh.
Proof.
  split; [vm_compute; discriminate|]. split; [vm_compute; reflexivity|].
  split; [vm_compute; discriminate|].
  apply start_job_overflow.
  - vm_compute. discriminate.
  - vm_compute. reflexivity.
  - vm_compute. reflexivity.
Qed.

(** C8, amended: [start_job] does not look at the sign of [qty].  Take a
    state whose cash and health are whole numbers with the cash, the cost
    and their difference at most [2^53] in magnitude.  With [qty <= 0], a
    working machine and non-negative cash the funds test passes: the call
    confirms, queues a job with that quantity and wears the machine; a
    negative [qty] raises the cash by [50 * |qty|]. *)
Theorem C8_start_job_nonpositive_qty
  (w : World) (job_id : string) (qty cash health : Z) :
  whole (cash_balance (twin w)) cash ->
  whole (num_val (machine_health (twin w))) health ->
  Z.abs (50 * qty) <= 2 ^ 53 ->
  Z.abs (cash + 50 * Z.abs qty) <= 2 ^ 53 ->
  qty <= 0 ->
  0 < health ->
  0 <= cash ->
  exists w',
    start_job job_id qty w
    = Returned ("Job " +:+ job_id +:+ " started. Cost: $" +:+ py_str (50 * qty)
                +:+ ". Est. Duration: 5 ticks.") w'
    /\ active_jobs (twin w')
       = active_jobs (twin w)
           ++ [{| j_id := job_id; j_qty := qty;
                  j_start_tick := factory_clock (twin w); j_duration := 5;
                  j_cost := 50 * qty; j_revenue := 0 |}]
    /\ (num_val (machine_health (twin w'))
        == inject_Z (Z.max 0 (health - wear_of (current_shift (twin w)))))%Q
    /\ whole (cash_balance (twin w')) (cash + 50 * Z.abs qty)
    /\ (qty < 0 -> (cash_balance (twin w) < cash_balance (twin w'))%Q).
Proof.
  intros [Hcash Hcb] [Hhealth Hhb] Hcost Hsum Hq Hpos Hc0.
  destruct (small_fits _ Hcost) as [Hff _].
  assert (Hfunds : (inject_Z (50 * qty) <= cash_balance (twin w))%Q)
    by (rewrite Hcash, <- Zle_Qle; lia).
  assert (Hh : (0 < num_val (machine_health (twin w)))%Q)
    by (rewrite Hhealth; change 0%Q with (inject_Z 0);
        rewrite <- Zlt_Qlt; exact Hpos).
  exists (started_world job_id qty w).
  split; [now apply start_job_ok|].
  cbn [started_world twin active_jobs machine_health cash_balance].
  assert (Hnew : (cash_balance (twin w) - inject_Z (50 * qty)
                  == inject_Z (cash + 50 * Z.abs qty))%Q).
  { rewrite (whole_sub _ _ _ Hcash). now replace (cash - 50 * qty)
      with (cash + 50 * Z.abs qty) by lia. }
  split; [reflexivity|]. split.
  { rewrite py_max0_val, num_sub_int_val. now apply worn_whole. }
  split; [split; [exact Hnew | exact Hsum]|].
  intros Hneg. rewrite Hnew, Hcash, <- Zlt_Qlt. lia.
Qed.

Lemma C8_witness :
  whole (cash_balance (twin fresh)) 1000
  /\ whole (num_val (machine_health (twin fresh))) 100
  /\ Z.abs (50 * -3) <= 2 ^ 53
  /\ Z.abs (1000 + 50 * Z.abs (-3)) <= 2 ^ 53
  /\ -3 <= 0
  /\ 0 < 100
  /\ 0 <= 1000
  /\ -3 < 0
  /\ exists w',
       start_job "REFUND" (-3) fresh
       = Returned "Job REFUND started. Cost: $-150. Est. Duration: 5 ticks." w'
       /\ whole (cash_balance (twin w')) 1150
       /\ (num_val (machine_health (twin w')) == 95)%Q
       /\ (cash_balance (twin fresh) < cash_balance (twin w'))%Q.
Proof.
  assert (H1 : whole (cash_balance (twin fresh)) 1000)
    by (split; [reflexivity | vm_compute; discriminate]).
  assert (H2 : whole (num_val (machine_health (twin fresh))) 100)
    by (split; [reflexivity | vm_compute; discriminate]).
  assert (H3 : Z.abs (50 * -3) <= 2 ^ 53) by (vm_compute; discriminate).
  assert (H4 : Z.abs (1000 + 50 * Z.abs (-3)) <= 2 ^ 53)
    by (vm_compute; discriminate).
  assert (H5 : -3 <= 0) by lia.
  assert (H6 : 0 < 100) by lia.
  assert (H7 : 0 <= 1000) by lia.
  assert (H8 : -3 < 0) by lia.
  repeat (split; [assumption|]).
  destruct (C8_start_job_nonpositive_qty fresh "REFUND" (-3) 1000 100
              H1 H2 H3 H4 H5 H6 H7)
    as (w' & Hs & _ & Hw & Hcash & Hup).
  exists w'. split; [exact Hs|]. split; [exact Hcash|]. split.
  - rewrite Hw. reflexivity.
  - exact (Hup H8).
Defined.

(** C9 as stated fails for a cost beyond the float range: with job "O1"
    active, [start_job("O1", -10^400)] has sufficient cash and a working
    machine, yet it raises [OverflowError] at the debit and appends
    nothing. *)
Lemma C9_counterexample :
  (exists job, In job (active_jobs (twin scenario_A)) /\ j_id job = "O1"%string)
  /\ (inject_Z (50 * - 10 ^ 400) <= cash_balance (twin scenario_A))%Q
  /\ (0 < num_val (machine_health (twin scenario_A)))%Q
  /\ start_job "O1" (- 10 ^ 400) scenario_A = Raised OverflowError scenario_A.
Proof.
  assert (Hc : (inject_Z (50 * - 10 ^ 400)
                <= cash_balance (twin scenario_A))%Q)
    by (vm_compute; discriminate).
  assert (Hh : (0 < num_val (machine_health (twin scenario_A)))%Q)
    by (vm_compute; reflexivity).
  split; [eexists; split; [left; reflexivity | reflexivity]|].
  split; [exact Hc|]. split; [exact Hh|].
  apply start_job_overflow; [exact Hc | exact Hh |].
  vm_compute. reflexivity.
Qed.

(** C9, amended: job ids are not kept unique.  With a job of id [X]
    already active, [start_job(X, qty)] succeeds — given sufficient cash, a
    working machine and a cost [50 * qty] that a float can hold — and
    appends a second job with the same id; the following [cancel_job(X)]
    removes the earliest job with id [X] and leaves the new one active. *)
Theorem C9_duplicate_job_ids (w : World) (X : string) (qty : Z) :
  (exists job, In job (active_jobs (twin w)) /\ j_id job = X) ->
  (inject_Z (50 * qty) <= cash_balance (twin w))%Q ->
  (0 < num_val (machine_health (twin w)))%Q ->
  fits_float (50 * qty) = true ->
  exists l1 old l2 new msg w1 w2,
    active_jobs (twin w) = l1 ++ old :: l2
    /\ j_id old = X
    /\ (forall j, In j l1 -> j_id j <> X)
    /\ start_job X qty w = Returned msg w1
    /\ new = {| j_id := X; j_qty := qty; j_start_tick := factory_clock (twin w);
                j_duration := 5; j_cost := 50 * qty; j_revenue := 0 |}
    /\ active_jobs (twin w1) = l1 ++ old :: l2 ++ [new]
    /\ cancel_job X w1 = Returned ("Job " +:+ X +:+ " cancelled.") w2
    /\ active_jobs (twin w2) = l1 ++ l2 ++ [new]
    /\ In new (active_jobs (twin w2)).
Proof.
  intros Hex Hc Hh Hf.
  destruct (first_job_with_id _ _ Hex) as (l1 & old & l2 & Hl & Hid & Hl1).
  exists l1, old, l2, (started_job X qty (twin w)). eexists _, _, _.
  split; [exact Hl|]. split; [exact Hid|].
  split; [now apply List.Forall_forall|].
  split; [now apply start_job_ok|]. split; [reflexivity|].
  assert (Ha : active_jobs (twin (started_world X qty w))
               = l1 ++ old :: (l2 ++ [started_job X qty (twin w)])).
  { cbn [started_world twin active_jobs]. rewrite Hl, <- app_assoc. reflexivity. }
  split; [exact Ha|].
  split; [now apply (cancel_job_found X _ _ _ _ Ha Hid)|].
  cbn [cancelled_world twin set_active_jobs active_jobs].
  split; [reflexivity|].
  apply in_or_app. right. apply in_or_app. right. now left.
Qed.

Lemma C9_witness :
  (exists job, In job (active_jobs (twin scenario_A)) /\ j_id job = "O1"%string)
  /\ (inject_Z (50 * 2) <= cash_balance (twin scenario_A))%Q
  /\ (0 < num_val (machine_health (twin scenario_A)))%Q
  /\ fits_float (50 * 2) = true
  /\ exists w1 w2,
       world_of (start_job "O1" 2 scenario_A) = w1
       /\ cancel_job "O1" w1 = Returned "Job O1 cancelled." w2
       /\ active_jobs (twin w2)
          = [{| j_id := "O1"; j_qty := 2; j_start_tick := 0; j_duration := 5;
                j_cost := 100; j_revenue := 0 |}].
Proof.
  assert (H1 : exists job, In job (active_jobs (twin scenario_A))
                           /\ j_id job = "O1"%string).
  { eexists. split; [left; reflexivity | reflexivity]. }
  assert (H2 : (inject_Z (50 * 2) <= cash_balance (twin scenario_A))%Q)
    by (vm_compute; discriminate).
  assert (H3 : (0 < num_val (machine_health (twin scenario_A)))%Q)
    by (vm_compute; reflexivity).
  assert (H4 : fits_float (50 * 2) = true) by (vm_compute; reflexivity).
  split; [exact H1|]. split; [exact H2|]. split; [exact H3|].
  split; [exact H4|].
  destruct (C9_duplicate_job_ids scenario_A "O1" 2 H1 H2 H3 H4)
    as (l1 & old & l2 & new & msg & w1 & w2
        & Hl & _ & _ & Hs & Hnew & _ & Hc & Ha & _).
  exists w1, w2. split; [now rewrite Hs|]. split; [exact Hc|].
  rewrite Ha, Hnew.
  destruct l1 as [|? [|? ?]]; [|discriminate Hl..].
  destruct l2; [reflexivity | discriminate Hl].
Defined.

(** C10 (the code departs from the claim where jobs complete): [tick]
    does not read [machine_health].  Two worlds that differ only there get
    the same outcome (returned or raised), the same clock, active jobs,
    cash and inventory, and each keeps its own health.  With a broken
    machine the running jobs still lose a tick of duration, while
    [start_job] is refused.  But a job that reaches zero does not complete,
    at health 0 or any other: it is taken off the list and the tick raises
    [KeyError] with inventory and cash unchanged. *)
Theorem C10_tick_ignores_health (w : World) (h : pynum) :
  let w' := with_twin (set_machine_health h) w in
  raised (tick w') = raised (tick w)
  /\ factory_clock (twin (world_of (tick w')))
     = factory_clock (twin (world_of (tick w)))
  /\ active_jobs (twin (world_of (tick w')))
     = active_jobs (twin (world_of (tick w)))
  /\ cash_balance (twin (world_of (tick w')))
     = cash_balance (twin (world_of (tick w)))
  /\ inventory (twin (world_of (tick w')))
     = inventory (twin (world_of (tick w)))
  /\ twin (world_of (tick w')) = set_machine_health h (twin (world_of (tick w)))
  /\ job_history (db (world_of (tick w'))) = job_history (db (world_of (tick w)))
  /\ rng (world_of (tick w')) = rng (world_of (tick w))
  /\ ((num_val h <= 0)%Q ->
      (forall job, In job (active_jobs (twin w)) -> 1 < j_duration job) ->
      raised (tick w') = None
      /\ factory_clock (twin (world_of (tick w'))) = factory_clock (twin w) + 1
      /\ active_jobs (twin (world_of (tick w')))
         = map (fun job => set_duration (j_duration job - 1) job)
             (active_jobs (twin w)))
  /\ ((num_val h <= 0)%Q ->
      forall job_id qty,
        raised (start_job job_id qty w') = None
        /\ world_of (start_job job_id qty w') = w')
  /\ ((exists job, In job (active_jobs (twin w)) /\ j_duration job <= 1) ->
      raised (tick w') = Some (KeyError (KInt (factory_clock (twin w) + 2)))
      /\ inventory (twin (world_of (tick w'))) = inventory (twin w)
      /\ cash_balance (twin (world_of (tick w'))) = cash_balance (twin w)
      /\ job_history (db (world_of (tick w'))) = job_history (db w)
      /\ length (active_jobs (twin (world_of (tick w'))))
         = pred (length (active_jobs (twin w)))).
Proof.
  intros w'.
  assert (Hmain :
    raised (tick w') = raised (tick w)
    /\ twin (world_of (tick w')) = set_machine_health h (twin (world_of (tick w)))
    /\ job_history (db (world_of (tick w'))) = job_history (db (world_of (tick w)))
    /\ rng (world_of (tick w')) = rng (world_of (tick w))).
  { destruct (progress_jobs (active_jobs (twin w))) as [jobs [|c rest]] eqn:H.
    - rewrite (tick_quiet w jobs H), (tick_quiet w' jobs H).
      unfold _log_state.
      cbn [w' ticked with_twin twin db set_machine_health set_active_jobs
             set_factory_clock factory_clock].
      destruct (factory_history (db w) !! (factory_clock (twin w) + 1));
        cbn; auto.
    - destruct (tick_raises w _ _ _ H) as (l & Hl & ->).
      destruct (tick_raises w' _ _ _ H) as (l' & Hl' & ->).
      assert (l' = l) as -> by congruence.
      cbn [raised world_of]. rewrite !twin_advance_by, !db_advance_by.
      repeat split. }
  destruct Hmain as (Hr & Ht & Hj & Hg).
  split; [exact Hr|].
  rewrite Ht. cbn [set_machine_health factory_clock active_jobs cash_balance
                     inventory].
  do 7 (split; [first [reflexivity | assumption]|]).
  split; [|split].
  - intros _ Hrun. rewrite Hr, (tick_all_running w Hrun).
    destruct (_log_state_frame
                (ticked (map decrement (active_jobs (twin w))) w))
      as (-> & -> & _).
    repeat split.
  - intros Hh job_id qty.
    destruct (Qlt_le_dec (cash_balance (twin w')) (inject_Z (50 * qty)))
      as [Hc|Hc].
    + rewrite (start_job_poor job_id qty w' Hc). split; reflexivity.
    + rewrite (start_job_broken job_id qty w' Hc Hh). split; reflexivity.
  - intros Hex.
    destruct (tick_completion_raises w Hex) as (Hk & _ & Hi & Hc & Hd & Hn).
    rewrite Hr, Hk, Hj, Hi, Hc, Hd, Hn. repeat split.
Qed.

Lemma C10_witness :
  let broken := with_twin (set_machine_health (PyInt 0)) scenario_A in
  (num_val (PyInt 0) <= 0)%Q
  /\ (forall job, In job (active_jobs (twin scenario_A)) -> 1 < j_duration job)
  /\ raised (tick broken) = None
  /\ active_jobs (twin (world_of (tick broken)))
     = [{| j_id := "O1"; j_qty := 10; j_start_tick := 0; j_duration := 4;
           j_cost := 500; j_revenue := 0 |}]
  /\ world_of (start_job "O2" 1 broken) = broken
  /\ (exists job,
        In job (active_jobs (twin (run [Tick; Tick; Tick; Tick] scenario_A)))
        /\ j_duration job <= 1)
  /\ raised (tick (with_twin (set_machine_health (PyInt 0))
                     (run [Tick; Tick; Tick; Tick] scenario_A)))
     = Some (KeyError (KInt 6))
  /\ inventory (twin (world_of (tick (with_twin (set_machine_health (PyInt 0))
                                        (run [Tick; Tick; Tick; Tick]
                                           scenario_A)))))
     = 0.
Proof.
  intros broken. subst broken.
  assert (H0 : (num_val (PyInt 0) <= 0)%Q) by (vm_compute; discriminate).
  assert (Hrun : forall job, In job (active_jobs (twin scenario_A))
                             -> 1 < j_duration job).
  { intros job [<- | []]. vm_compute. reflexivity. }
  destruct (C10_tick_ignores_health scenario_A (PyInt 0))
    as (_ & _ & _ & _ & _ & _ & _ & _ & Hadv & Hblock & _).
  destruct (Hadv H0 Hrun) as (Hr & _ & Ha).
  split; [exact H0|]. split; [exact Hrun|]. split; [exact Hr|].
  split; [rewrite Ha; reflexivity|].
  split; [exact (proj2 (Hblock H0 "O2"%string 1))|].
  assert (Hex : exists job,
             In job (active_jobs
                       (twin (run [Tick; Tick; Tick; Tick] scenario_A)))
             /\ j_duration job <= 1).
  { eexists. split; [vm_compute; left; reflexivity | vm_compute; discriminate]. }
  destruct (C10_tick_ignores_health (run [Tick; Tick; Tick; Tick] scenario_A)
              (PyInt 0))
    as (_ & _ & _ & _ & _ & _ & _ & _ & _ & _ & Hdone).
  destruct (Hdone Hex) as (Hk & Hi & _).
  split; [exact Hex|]. split; [exact Hk|]. rewrite Hi. reflexivity.
Defined.

(** ** Further properties of the engine *)

(** *** How a call changes the twin *)

Lemma list_remove_Forall (P : Job -> Prop) (x : Job) (l l' : list Job) :
  list_remove x l = Some l' -> List.Forall P l -> List.Forall P l'.
Proof.
  revert l'. induction l as [|y l IH]; cbn; intros l' H Hl; [discriminate|].
  inversion Hl as [|? ? Hy Hr]; subst.
  destruct (job_eqb y x); [now injection H as <-|].
  destruct (list_remove x l) as [r|]; [|discriminate].
  injection H as <-. constructor; [exact Hy | now apply IH].
Qed.

Lemma list_remove_length (x : Job) (l l' : list Job) :
  list_remove x l = Some l' -> length l = S (length l').
Proof.
  revert l'. induction l as [|y l IH]; cbn; intros l' H; [discriminate|].
  destruct (job_eqb y x); [now injection H as <-|].
  destruct (list_remove x l) as [r|]; [|discriminate].
  injection H as <-. cbn. now rewrite (IH r).
Qed.

(** Whatever happens in a tick, the twin afterwards is the old one with
    the clock moved by one and a new job list: all jobs decremented, or all
    jobs decremented and one of them removed. *)
Lemma tick_twin (w : World) :
  exists jobs,
    twin (world_of (tick w))
    = set_active_jobs jobs
        (set_factory_clock (factory_clock (twin w) + 1) (twin w))
    /\ (jobs = map decrement (active_jobs (twin w))
        \/ exists c, list_remove c (map decrement (active_jobs (twin w)))
                     = Some jobs).
Proof.
  destruct (progress_jobs (active_jobs (twin w))) as [jobs [|c rest]] eqn:H.
  - exists jobs. rewrite (tick_quiet _ _ H).
    destruct (_log_state_frame (ticked jobs w)) as (_ & -> & _).
    split; [reflexivity|]. left. rewrite progress_jobs_eq in H.
    now injection H as <- _.
  - destruct (tick_raises _ _ _ _ H) as (l & Hl & ->). exists l.
    cbn [world_of]. rewrite twin_advance_by. split; [reflexivity|].
    right. exists c. rewrite progress_jobs_eq in H. now injection H as <- _.
Qed.

(** [cancel_job] leaves the twin alone or drops one job from the list. *)
Lemma cancel_job_twin (job_id : string) (w : World) :
  twin (world_of (cancel_job job_id w)) = twin w
  \/ exists l1 job l2,
       active_jobs (twin w) = l1 ++ job :: l2
       /\ twin (world_of (cancel_job job_id w))
          = set_active_jobs (l1 ++ l2) (twin w).
Proof.
  destruct (find_job job_id (active_jobs (twin w))) as [job|] eqn:E.
  - destruct (find_job_split _ _ _ E) as (l1 & l2 & Hl & Hid & Hl1).
    right. exists l1, job, l2. split; [exact Hl|].
    now rewrite (cancel_job_found _ _ _ _ _ Hl Hid Hl1).
  - left. unfold cancel_job. run_eng. now rewrite E.
Qed.

Lemma repair_machine_cases (w : World) :
  repair_machine w = Returned "Insufficient funds for repair." w
  \/ ((200 <= cash_balance (twin w))%Q
      /\ repair_machine w
         = Returned "Machine repaired. Cost: $200. Health: 100%."
             (with_twin (fun s => set_machine_health (PyFloat 100)
                                    (set_cash_balance (cash_balance s - 200) s))
                w)).
Proof.
  destruct (Qlt_le_dec (cash_balance (twin w)) 200) as [Hc|Hc].
  - left. now apply repair_machine_poor.
  - right. split; [exact Hc | now apply repair_machine_ok].
Qed.

Lemma change_shift_cases (new_shift : string) (w : World) :
  change_shift new_shift w = Returned "Invalid shift. Use DAY or NIGHT." w
  \/ ((new_shift = "DAY"%string \/ new_shift = "NIGHT"%string)
      /\ change_shift new_shift w
         = Returned ("Shift changed to " +:+ new_shift +:+ ".")
             (with_twin (set_current_shift new_shift) w)).
Proof.
  destruct (String.eqb_spec new_shift "DAY") as [Hd|Hd].
  - right. split; [now left | apply change_shift_ok; now left].
  - destruct (String.eqb_spec new_shift "NIGHT") as [Hn|Hn].
    + right. split; [now right | apply change_shift_ok; now right].
    + left. now apply change_shift_invalid.
Qed.

(** A property kept by every call is kept by every session. *)
Lemma run_invariant (P : World -> Prop) :
  (forall c w, P w -> P (exec c w)) ->
  forall cs w, P w -> P (run cs w).
Proof.
  intros Hstep cs. induction cs as [|c cs IH]; intros w Hw; [exact Hw|].
  cbn [run fold_left]. apply IH. now apply Hstep.
Qed.

Lemma run_app (cs1 cs2 : list Command) (w : World) :
  run (cs1 ++ cs2) w = run cs2 (run cs1 w).
Proof. unfold run. apply fold_left_app. Qed.

Lemma jobs_running_dec (l : list Job) :
  (forall job, In job l -> 1 < j_duration job)
  \/ (exists job, In job l /\ j_duration job <= 1).
Proof.
  induction l as [|y l [IH|(job & Hin & Hd)]].
  - left. intros job [].
  - destruct (Z_lt_le_dec 1 (j_duration y)) as [Hy|Hy].
    + left. intros job [<- | Hin]; [exact Hy | now apply IH].
    + right. exists y. split; [now left | exact Hy].
  - right. exists job. split; [now right | exact Hd].
Qed.

(** *** The tick *)

Lemma tick_returns_iff (w : World) :
  raised (tick w) = None
  <-> forall job, In job (active_jobs (twin w)) -> 1 < j_duration job.
Proof.
  destruct (jobs_running_dec (active_jobs (twin w))) as [Hrun|Hex].
  - split; [intros _; exact Hrun|]. intros _.
    rewrite (tick_all_running w Hrun). apply _log_state_frame.
  - destruct (tick_completion_raises w Hex) as (Hr & _). split.
    + intros Hn. rewrite Hr in Hn. discriminate.
    + intros Hrun. destruct Hex as (job & Hin & Hd).
      specialize (Hrun job Hin). lia.
Qed.

(** X1: [tick] returns normally exactly when every active job has more
    than one tick of duration left; in every other state it raises
    [KeyError(factory_clock + 2)] (the clock read before the call). *)
Theorem X1_tick_returns_iff_all_running (w : World) :
  (raised (tick w) = None
   <-> forall job, In job (active_jobs (twin w)) -> 1 < j_duration job)
  /\ (raised (tick w) <> None ->
      raised (tick w) = Some (KeyError (KInt (factory_clock (twin w) + 2)))).
Proof.
  split; [apply tick_returns_iff|]. intros Hn.
  destruct (jobs_running_dec (active_jobs (twin w))) as [Hrun|Hex].
  - destruct Hn. now apply tick_returns_iff.
  - apply (tick_completion_raises w Hex).
Qed.

Lemma X1_witness :
  (forall job, In job (active_jobs (twin scenario_A)) -> 1 < j_duration job)
  /\ raised (tick scenario_A) = None
  /\ raised (tick (run [Tick; Tick; Tick; Tick] scenario_A)) <> None
  /\ raised (tick (run [Tick; Tick; Tick; Tick] scenario_A))
     = Some (KeyError (KInt 6)).
Proof.
  assert (Hrun : forall job, In job (active_jobs (twin scenario_A))
                             -> 1 < j_duration job).
  { intros job [<- | []]. vm_compute. reflexivity. }
  assert (Hn : raised (tick (run [Tick; Tick; Tick; Tick] scenario_A)) <> None).
  { intros Hr.
    apply (proj1 (proj1 (X1_tick_returns_iff_all_running _))) with
      (job := {| j_id := "O1"; j_qty := 10; j_start_tick := 0;
                 j_duration := 1; j_cost := 500; j_revenue := 0 |}) in Hr.
    - vm_compute in Hr. discriminate Hr.
    - vm_compute. left. reflexivity. }
  split; [exact Hrun|].
  split; [exact (proj2 (proj1 (X1_tick_returns_iff_all_running scenario_A)) Hrun)|].
  split; [exact Hn|].
  exact (proj2 (X1_tick_returns_iff_all_running _) Hn).
Defined.



(** Every call moves the twin by one of the steps of [twin_step]. *)
Lemma exec_twin_step (c : Command) (w : World) :
  twin_step (twin w) (twin (exec c w)).
Proof.
  destruct c as [job_id qty|job_id| |new_shift| | | |horizon|cat descr];
    cbn [exec].
  - destruct (start_job_cases job_id qty w) as [-> | [-> | [-> | (Hc & Hh & ->)]]];
      try apply step_none.
    exact (step_start (twin w) job_id qty Hc Hh).
  - destruct (cancel_job_twin job_id w) as [-> | (l1 & job & l2 & Hl & ->)];
      [apply step_none | now apply step_cancel with job].
  - destruct (repair_machine_cases w) as [-> | (Hc & ->)];
      [apply step_none | exact (step_repair (twin w) Hc)].
  - destruct (change_shift_cases new_shift w) as [-> | (Hs & ->)];
      [apply step_none | exact (step_shift (twin w) new_shift Hs)].
  - destruct (tick_twin w) as (jobs & -> & Hj). now apply step_tick.
  - apply step_none.
  - apply step_none.
  - rewrite get_market_forecast_eq. cbn [world_of]. rewrite twin_advance_by.
    apply step_none.
  - apply step_none.
Qed.

(** What a call can do to the two tables: at most one job row is upserted,
    with status STARTED or CANCELLED, and at most one snapshot is inserted,
    under a tick that had no row. *)
Lemma exec_db (c : Command) (w : World) :
  (job_history (db (exec c w)) = job_history (db w)
   \/ exists job_id row,
        job_history (db (exec c w)) = <[job_id := row]> (job_history (db w))
        /\ (r_status row = "STARTED"%string \/ r_status row = "CANCELLED"%string))
  /\ (factory_history (db (exec c w)) = factory_history (db w)
      \/ exists k row,
           factory_history (db w) !! k = None
           /\ factory_history (db (exec c w))
              = <[k := row]> (factory_history (db w))).
Proof.
  destruct c as [job_id qty|job_id| |new_shift| | | |horizon|cat descr];
    cbn [exec].
  - destruct (start_job_cases job_id qty w) as [-> | [-> | [-> | (_ & _ & ->)]]];
      cbn [world_of]; try (split; left; reflexivity).
    unfold started_world.
    destruct (fits_int64 (factory_clock (twin w))
              && fits_int64 (factory_clock (twin w))
              && fits_int64 (50 * qty));
      cbn [db job_history factory_history]; [|split; left; reflexivity].
    split; [right | left; reflexivity].
    eexists _, _. split; [reflexivity|]. now left.
  - destruct (find_job job_id (active_jobs (twin w))) as [job|] eqn:E.
    + destruct (find_job_split _ _ _ E) as (l1 & l2 & Hl & Hid & Hl1).
      rewrite (cancel_job_found _ _ _ _ _ Hl Hid Hl1). cbn [world_of].
      unfold cancelled_world.
      destruct (fits_int64 (j_start_tick job)
                && fits_int64 (factory_clock (twin w))
                && fits_int64 (j_cost job));
        cbn [db job_history factory_history]; [|split; left; reflexivity].
      split; [right | left; reflexivity].
      eexists _, _. split; [reflexivity|]. now right.
    + unfold cancel_job. run_eng. rewrite E. split; left; reflexivity.
  - destruct (repair_machine_cases w) as [-> | (_ & ->)];
      split; left; reflexivity.
  - destruct (change_shift_cases new_shift w) as [-> | (_ & ->)];
      split; left; reflexivity.
  - destruct (progress_jobs (active_jobs (twin w))) as [jobs [|c rest]] eqn:H.
    + rewrite (tick_quiet _ _ H). unfold _log_state.
      destruct (factory_history (db (ticked jobs w))
                  !! factory_clock (twin (ticked jobs w))) eqn:E;
        cbn [world_of]; (split; [left; reflexivity|]);
        [left; reflexivity|].
      right. eexists _, _. split; [exact E | reflexivity].
    + destruct (tick_raises _ _ _ _ H) as (l & _ & ->). cbn [world_of].
      rewrite db_advance_by. split; left; reflexivity.
  - split; left; reflexivity.
  - split; left; reflexivity.
  - rewrite get_market_forecast_eq. cbn [world_of]. rewrite db_advance_by.
    split; left; reflexivity.
  - split; left; reflexivity.
Qed.

Lemma exec_clock (c : Command) (w : World) :
  factory_clock (twin (exec c w))
  = factory_clock (twin w) + match c with Tick => 1 | _ => 0 end.
Proof.
  destruct c as [job_id qty|job_id| |new_shift| | | |horizon|cat descr];
    cbn [exec]; rewrite ?Z.add_0_r.
  - destruct (start_job_cases job_id qty w) as [-> | [-> | [-> | (_ & _ & ->)]]];
      reflexivity.
  - destruct (cancel_job_twin job_id w) as [-> | (l1 & job & l2 & _ & ->)];
      reflexivity.
  - destruct (repair_machine_cases w) as [-> | (_ & ->)]; reflexivity.
  - destruct (change_shift_cases new_shift w) as [-> | (_ & ->)]; reflexivity.
  - destruct (tick_twin w) as (jobs & -> & _). reflexivity.
  - reflexivity.
  - reflexivity.
  - rewrite get_market_forecast_eq. cbn [world_of]. now rewrite twin_advance_by.
  - reflexivity.
Qed.

(** *** Sessions *)

(** X3: the snapshot table only grows.  A row that is in [factory_history]
    — written earlier in the session or left by an earlier run on the same
    file — is still there, unchanged, after any further calls. *)
Theorem X3_snapshots_are_never_overwritten
  (cs : list Command) (w : World) (k : Z) (row : TickRow) :
  factory_history (db w) !! k = Some row ->
  factory_history (db (run cs w)) !! k = Some row.
Proof.
  apply (run_invariant (fun w' => factory_history (db w') !! k = Some row)).
  intros c w' Hw'.
  destruct (proj2 (exec_db c w')) as [-> | (k' & row' & Hnone & ->)];
    [exact Hw'|].
  rewrite lookup_insert_ne; [exact Hw'|]. intros ->. congruence.
Qed.

Lemma X3_witness :
  let w1 := exec Tick scenario_A in
  let restarted := FactoryState_init (db w1) quiet_rng in
  factory_history (db restarted) !! 1 = Some (snapshot (twin w1))
  /\ factory_history (db (run [StartJob "N1" 1; Tick; Tick] restarted)) !! 1
     = Some (snapshot (twin w1)).
Proof.
  intros w1 restarted.
  assert (H : factory_history (db restarted) !! 1 = Some (snapshot (twin w1)))
    by (vm_compute; reflexivity).
  split; [exact H|].
  exact (X3_snapshots_are_never_overwritten _ restarted 1 _ H).
Defined.

(** X4: the clock counts the ticks.  After any calls the clock is the old
    clock plus the number of [tick()] calls among them, whether those ticks
    returned or raised; no other call moves it. *)
Theorem X4_clock_counts_ticks (cs : list Command) (w : World) :
  factory_clock (twin (run cs w)) = factory_clock (twin w) + count_ticks cs.
Proof.
  revert w. induction cs as [|c cs IH]; intros w.
  - unfold count_ticks. cbn. lia.
  - cbn [run fold_left]. fold (run cs (exec c w)). rewrite IH, exec_clock.
    unfold count_ticks. cbn [List.filter].
    destruct c; cbn [length]; lia.
Qed.

(** X5: no session ever books a finished job.  Whatever the calls, the
    inventory is the one the session began with, and a row of [job_history]
    whose status is COMPLETED was in the table, identical, before the
    session: every tick that reaches the completion code raises before the
    inventory, the cash or the row are written. *)
Theorem X5_nothing_is_ever_completed (cs : list Command) (w : World) :
  inventory (twin (run cs w)) = inventory (twin w)
  /\ (forall job_id row,
        job_history (db (run cs w)) !! job_id = Some row ->
        r_status row = "COMPLETED"%string ->
        job_history (db w) !! job_id = Some row).
Proof.
  split.
  - apply (run_invariant
             (fun w' => inventory (twin w') = inventory (twin w)));
      [|reflexivity].
    intros c w' Hw'. destruct (exec_twin_step c w'); exact Hw'.
  - apply (run_invariant
             (fun w' => forall job_id row,
                  job_history (db w') !! job_id = Some row ->
                  r_status row = "COMPLETED"%string ->
                  job_history (db w) !! job_id = Some row));
      [|intros job_id row H _; exact H].
    intros c w' Hw' job_id row Hrow Hst.
    destruct (proj1 (exec_db c w')) as [E | (id' & row' & E & Hs)];
      rewrite E in Hrow; [now apply Hw'|].
    destruct (decide (id' = job_id)) as [->|Hne].
    + rewrite lookup_insert_eq in Hrow. injection Hrow as ->.
      destruct Hs as [Hs|Hs]; rewrite Hs in Hst; discriminate.
    + rewrite lookup_insert_ne in Hrow by exact Hne. now apply Hw'.
Qed.

Lemma X5_witness :
  let w0 := FactoryState_init old_db quiet_rng in
  let cs := [StartJob "O1" 10; Tick; CancelJob "O1"] in
  let row := {| r_start_tick := 0; r_end_tick := 5; r_status := "COMPLETED";
                r_revenue := 1500; r_cost := 500 |} in
  job_history (db (run cs w0)) !! "OLD"%string = Some row
  /\ r_status row = "COMPLETED"%string
  /\ job_history (db w0) !! "OLD"%string = Some row
  /\ inventory (twin (run cs w0)) = 0.
Proof.
  intros w0 cs row.
  assert (H1 : job_history (db (run cs w0)) !! "OLD"%string = Some row)
    by (vm_compute; reflexivity).
  assert (H2 : r_status row = "COMPLETED"%string) by reflexivity.
  destruct (X5_nothing_is_ever_completed cs w0) as [Hinv Hrows].
  split; [exact H1|]. split; [exact H2|].
  split; [exact (Hrows _ _ H1 H2) | exact Hinv].
Defined.

Lemma exec_cash (c : Command) (w : World) :
  cash_balance (twin (exec c w)) = cash_balance (twin w)
  \/ (exists job_id qty,
        c = StartJob job_id qty
        /\ (inject_Z (50 * qty) <= cash_balance (twin w))%Q
        /\ cash_balance (twin (exec c w))
           = (cash_balance (twin w) - inject_Z (50 * qty))%Q)
  \/ (c = RepairMachine
      /\ (200 <= cash_balance (twin w))%Q
      /\ cash_balance (twin (exec c w)) = (cash_balance (twin w) - 200)%Q).
Proof.
  destruct c as [job_id qty|job_id| |new_shift| | | |horizon|cat descr];
    cbn [exec].
  - destruct (start_job_cases job_id qty w) as [-> | [-> | [-> | (Hc & _ & ->)]]];
      [now left | now left | now left |].
    right. left. exists job_id, qty. repeat split. exact Hc.
  - left. apply cancel_job_frame.
  - destruct (repair_machine_cases w) as [-> | (Hc & ->)]; [now left|].
    right. right. repeat split. exact Hc.
  - destruct (change_shift_cases new_shift w) as [-> | (_ & ->)]; now left.
  - left. destruct (tick_twin w) as (jobs & -> & _). reflexivity.
  - now left.
  - now left.
  - left. rewrite get_market_forecast_eq. cbn [world_of].
    now rewrite twin_advance_by.
  - now left.
Qed.

(** X6: the guards keep the cash from going negative, and nothing ever
    pays in.  From non-negative cash, any session ends with non-negative
    cash; and when no job is started with a negative quantity the cash
    never exceeds what the session began with. *)
Theorem X6_cash_stays_between_zero_and_start (cs : list Command) (w : World) :
  ((0 <= cash_balance (twin w))%Q -> (0 <= cash_balance (twin (run cs w)))%Q)
  /\ (List.Forall (fun c => match c with
                            | StartJob _ qty => 0 <= qty
                            | _ => True
                            end) cs ->
      (cash_balance (twin (run cs w)) <= cash_balance (twin w))%Q).
Proof.
  split.
  - apply (run_invariant (fun w' => (0 <= cash_balance (twin w'))%Q)).
    intros c w' Hw'.
    destruct (exec_cash c w')
      as [-> | [(job_id & qty & _ & Hc & ->) | (_ & Hc & ->)]];
      [exact Hw' | |]; now apply Qle_minus_iff in Hc.
  - revert w. induction cs as [|c cs IH]; intros w Hq; [apply Qle_refl|].
    inversion Hq as [|? ? Hc Hcs]; subst.
    cbn [run fold_left]. fold (run cs (exec c w)).
    apply Qle_trans with (cash_balance (twin (exec c w))); [now apply IH|].
    destruct (exec_cash c w)
      as [-> | [(job_id & qty & -> & _ & ->) | (_ & _ & ->)]].
    + apply Qle_refl.
    + rewrite <- (Qplus_0_r (cash_balance (twin w))) at 2. unfold Qminus.
      apply Qplus_le_r. change 0%Q with (- inject_Z 0)%Q.
      apply Qopp_le_compat. rewrite <- Zle_Qle. lia.
    + rewrite <- (Qplus_0_r (cash_balance (twin w))) at 2. unfold Qminus.
      apply Qplus_le_r. discriminate.
Qed.

Lemma X6_witness :
  let cs := [StartJob "O1" 10; RepairMachine; Tick; StartJob "O2" 7;
             StartJob "O3" 6; RepairMachine] in
  (0 <= cash_balance (twin fresh))%Q
  /\ List.Forall (fun c => match c with
                           | StartJob _ qty => 0 <= qty
                           | _ => True
                           end) cs
  /\ (0 <= cash_balance (twin (run cs fresh)))%Q
  /\ (cash_balance (twin (run cs fresh)) <= cash_balance (twin fresh))%Q
  /\ cash_balance (twin (run cs fresh)) = 0%Q.
Proof.
  intros cs.
  assert (H0 : (0 <= cash_balance (twin fresh))%Q) by (vm_compute; discriminate).
  assert (Hq : List.Forall (fun c => match c with
                                     | StartJob _ qty => 0 <= qty
                                     | _ => True
                                     end) cs).
  { repeat constructor; lia. }
  destruct (X6_cash_stays_between_zero_and_start cs fresh) as [Hlo Hhi].
  split; [exact H0|]. split; [exact Hq|].
  split; [exact (Hlo H0)|]. split; [exact (Hhi Hq)|].
  vm_compute. reflexivity.
Defined.

Lemma reachable_run (cs : list Command) (w : World) :
  reachable w -> reachable (run cs w).
Proof. apply run_invariant. intros c w'. apply reachable_exec. Qed.

(** The parts of the twin no call writes. *)
Lemma reachable_config (w : World) :
  reachable w ->
  base_market_price (twin w) = 150%Q /\ base_market_demand (twin w) = 10.
Proof.
  induction 1 as [d g|c w _ IH]; [split; reflexivity|].
  destruct (exec_twin_step c w); exact IH.
Qed.

(** X7: the shift is always one of the two known ones.  In every world a
    session can reach [current_shift] is "DAY" or "NIGHT", so the wear of a
    started job is 5 exactly on DAY and 8 exactly on NIGHT. *)
Theorem X7_shift_is_day_or_night (w : World) :
  reachable w ->
  (current_shift (twin w) = "DAY"%string
   /\ wear_of (current_shift (twin w)) = 5)
  \/ (current_shift (twin w) = "NIGHT"%string
      /\ wear_of (current_shift (twin w)) = 8).
Proof.
  induction 1 as [d g|c w _ IH]; [left; split; reflexivity|].
  destruct (exec_twin_step c w) as [| | | |new_shift [-> | ->]|]; try exact IH.
  - left. split; reflexivity.
  - right. split; reflexivity.
Qed.

Lemma X7_witness :
  let w := run [ChangeShift "NIGHT"; ChangeShift "EVENING"; StartJob "O1" 1]
             fresh in
  reachable w
  /\ current_shift (twin w) = "NIGHT"%string
  /\ wear_of (current_shift (twin w)) = 8.
Proof.
  intros w.
  assert (Hr : reachable w) by (apply reachable_run, reachable_init).
  split; [exact Hr|].
  destruct (X7_shift_is_day_or_night w Hr) as [[Hs _] | H]; [|exact H].
  vm_compute in Hs. discriminate Hs.
Defined.

Lemma on_schedule_same_clock (s s' : FactoryState) (job : Job) :
  factory_clock s' = factory_clock s -> on_schedule s job -> on_schedule s' job.
Proof. unfold on_schedule. now intros ->. Qed.

Lemma step_on_schedule (s s' : FactoryState) :
  twin_step s s' ->
  List.Forall (on_schedule s) (active_jobs s) ->
  List.Forall (on_schedule s') (active_jobs s').
Proof.
  intros Hstep Hs.
  destruct Hstep as [|job_id qty _ _|l1 job l2 Hl| |new_shift _|jobs Hj];
    cbn [active_jobs set_active_jobs set_machine_health set_cash_balance
           set_current_shift set_factory_clock]; try exact Hs.
  - apply Forall_app. split.
    + eapply List.Forall_impl; [|exact Hs]. intros job.
      now apply on_schedule_same_clock.
    + repeat constructor; cbn; lia.
  - rewrite Hl in Hs. apply Forall_app in Hs. destruct Hs as [H1 H2].
    inversion H2; subst. apply Forall_app. split.
    + eapply List.Forall_impl; [|exact H1]. intros j.
      now apply on_schedule_same_clock.
    + eapply List.Forall_impl; [|eassumption]. intros j.
      now apply on_schedule_same_clock.
  - assert (Hd : List.Forall
                   (on_schedule
                      (set_active_jobs jobs
                         (set_factory_clock (factory_clock s + 1) s)))
                   (map decrement (active_jobs s))).
    { apply List.Forall_map. eapply List.Forall_impl; [|exact Hs].
      intros job (H1 & H2 & H3 & H4). unfold on_schedule. cbn.
      repeat split; try assumption; lia. }
    destruct Hj as [-> | (c & Hc)]; [exact Hd|].
    exact (list_remove_Forall _ _ _ _ Hc Hd).
Qed.

(** X8: every running job is on schedule.  In every reachable world each
    active job has [duration = 5 - (factory_clock - start_tick)], was
    started no later than now, carries [cost = 50 * qty] and revenue 0.
    Hence [tick] raises exactly when some active job was started four or
    more ticks ago. *)
Theorem X8_jobs_are_on_schedule (w : World) :
  reachable w ->
  (forall job, In job (active_jobs (twin w)) ->
     j_duration job = 5 - (factory_clock (twin w) - j_start_tick job)
     /\ j_start_tick job <= factory_clock (twin w)
     /\ j_duration job <= 5
     /\ j_cost job = 50 * j_qty job
     /\ j_revenue job = 0%Q)
  /\ (raised (tick w) = None
      <-> forall job, In job (active_jobs (twin w)) ->
            factory_clock (twin w) - j_start_tick job < 4).
Proof.
  intros Hr.
  assert (Hs : List.Forall (on_schedule (twin w)) (active_jobs (twin w))).
  { induction Hr as [d g|c w _ IH]; [constructor|].
    exact (step_on_schedule _ _ (exec_twin_step c w) IH). }
  rewrite List.Forall_forall in Hs. split.
  - intros job Hin. destruct (Hs job Hin) as (H1 & H2 & H3 & H4).
    repeat split; try assumption. lia.
  - rewrite tick_returns_iff.
    split; intros H job Hin; specialize (H job Hin);
      destruct (Hs job Hin) as (H1 & _); lia.
Qed.

Lemma X8_witness :
  let w := run [StartJob "O1" 10; Tick; StartJob "O2" 1; Tick; Tick; Tick]
             fresh in
  let o1 := {| j_id := "O1"; j_qty := 10; j_start_tick := 0; j_duration := 1;
               j_cost := 500; j_revenue := 0 |} in
  reachable w
  /\ In o1 (active_jobs (twin w))
  /\ j_duration o1 = 5 - (factory_clock (twin w) - j_start_tick o1)
  /\ raised (tick w) <> None
  /\ (forall job, In job (active_jobs (twin scenario_A)) ->
        factory_clock (twin scenario_A) - j_start_tick job < 4)
  /\ raised (tick scenario_A) = None.
Proof.
  intros w o1.
  assert (Hr : reachable w) by (apply reachable_run, reachable_init).
  assert (Hin : In o1 (active_jobs (twin w))) by (vm_compute; left; reflexivity).
  assert (Hyoung : forall job, In job (active_jobs (twin scenario_A)) ->
                     factory_clock (twin scenario_A) - j_start_tick job < 4).
  { intros job [<- | []]. vm_compute. reflexivity. }
  assert (HrA : reachable scenario_A) by (apply reachable_exec, reachable_init).
  destruct (X8_jobs_are_on_schedule w Hr) as [Hs Hiff].
  split; [exact Hr|]. split; [exact Hin|].
  split; [exact (proj1 (Hs o1 Hin))|]. split.
  - intros Hn. apply (proj1 Hiff) with (job := o1) in Hn; [|exact Hin].
    vm_compute in Hn. discriminate Hn.
  - split; [exact Hyoung|].
    exact (proj2 (proj2 (X8_jobs_are_on_schedule scenario_A HrA)) Hyoung).
Defined.

(** *** Start, then cancel *)

(** X9: starting a job under an id no active job carries and cancelling it
    again gives back the old active list, but not the money and not the
    health.  For whole cash and health, with the cash, the cost and their
    difference at most [2^53] in magnitude and the clock within the 64-bit
    range: the cash stays debited by [50 * qty], the wear stays applied,
    and the job's single row in [job_history] ends as CANCELLED with the
    cost on it. *)
Theorem X9_start_then_cancel
  (w : World) (job_id : string) (qty cash health : Z) :
  (forall job, In job (active_jobs (twin w)) -> j_id job <> job_id) ->
  whole (cash_balance (twin w)) cash ->
  whole (num_val (machine_health (twin w))) health ->
  Z.abs (50 * qty) <= 2 ^ 53 ->
  Z.abs (cash - 50 * qty) <= 2 ^ 53 ->
  fits_int64 (factory_clock (twin w)) = true ->
  50 * qty <= cash ->
  0 < health ->
  exists msg w1 w2,
    start_job job_id qty w = Returned msg w1
    /\ cancel_job job_id w1 = Returned ("Job " +:+ job_id +:+ " cancelled.") w2
    /\ active_jobs (twin w2) = active_jobs (twin w)
    /\ whole (cash_balance (twin w2)) (cash - 50 * qty)
    /\ (num_val (machine_health (twin w2))
        == inject_Z (Z.max 0 (health - wear_of (current_shift (twin w)))))%Q
    /\ job_history (db w2) !! job_id
       = Some {| r_start_tick := factory_clock (twin w);
                 r_end_tick := factory_clock (twin w);
                 r_status := "CANCELLED"; r_revenue := 0;
                 r_cost := 50 * qty |}
    /\ (forall other, other <> job_id ->
          job_history (db w2) !! other = job_history (db w) !! other)
    /\ cancel_job job_id w2 = Returned "Job not found." w2.
Proof.
  intros Hfree [Hcash Hcb] [Hhealth Hhb] Hq Hd Hclk Hfunds Hpos.
  destruct (small_fits _ Hq) as [Hff Hf64].
  assert (Hc : (inject_Z (50 * qty) <= cash_balance (twin w))%Q)
    by (rewrite Hcash, <- Zle_Qle; exact Hfunds).
  assert (Hh : (0 < num_val (machine_health (twin w)))%Q)
    by (rewrite Hhealth; change 0%Q with (inject_Z 0);
        rewrite <- Zlt_Qlt; exact Hpos).
  assert (Ha : active_jobs (twin (started_world job_id qty w))
               = active_jobs (twin w) ++ started_job job_id qty (twin w) :: [])
    by reflexivity.
  assert (Hl1 : List.Forall (fun j => j_id j <> job_id) (active_jobs (twin w)))
    by now apply List.Forall_forall.
  eexists _, _, _. split; [now apply start_job_ok|].
  split; [exact (cancel_job_found job_id _ _ _ _ Ha eq_refl Hl1)|].
  unfold cancelled_world, started_world.
  cbn [twin set_active_jobs active_jobs cash_balance machine_health
         factory_clock started_job j_id j_start_tick j_revenue j_cost].
  rewrite Hclk, Hf64. cbn [andb db job_history cancelled_row
                             j_start_tick j_revenue j_cost factory_clock].
  rewrite app_nil_r. split; [reflexivity|].
  split; [split; [now apply whole_sub | exact Hd]|].
  split; [rewrite py_max0_val, num_sub_int_val; now apply worn_whole|].
  split; [apply lookup_insert_eq|].
  split; [intros other Hne; now rewrite !lookup_insert_ne by congruence|].
  apply cancel_job_missing.
  cbn [twin set_active_jobs active_jobs]. exact Hfree.
Qed.

Lemma X9_witness :
  (forall job, In job (active_jobs (twin scenario_A)) -> j_id job <> "O2"%string)
  /\ whole (cash_balance (twin scenario_A)) 500
  /\ whole (num_val (machine_health (twin scenario_A))) 95
  /\ Z.abs (50 * 4) <= 2 ^ 53
  /\ Z.abs (500 - 50 * 4) <= 2 ^ 53
  /\ fits_int64 (factory_clock (twin scenario_A)) = true
  /\ 50 * 4 <= 500
  /\ 0 < 95
  /\ exists w2,
       world_of (cancel_job "O2" (world_of (start_job "O2" 4 scenario_A))) = w2
       /\ active_jobs (twin w2) = active_jobs (twin scenario_A)
       /\ whole (cash_balance (twin w2)) 300
       /\ (num_val (machine_health (twin w2)) == 90)%Q.
Proof.
  assert (H0 : forall job, In job (active_jobs (twin scenario_A))
                           -> j_id job <> "O2"%string).
  { intros job [<- | []]. discriminate. }
  assert (H1 : whole (cash_balance (twin scenario_A)) 500)
    by (split; [reflexivity | vm_compute; discriminate]).
  assert (H2 : whole (num_val (machine_health (twin scenario_A))) 95)
    by (split; [reflexivity | vm_compute; discriminate]).
  assert (H3 : Z.abs (50 * 4) <= 2 ^ 53) by (vm_compute; discriminate).
  assert (H4 : Z.abs (500 - 50 * 4) <= 2 ^ 53) by (vm_compute; discriminate).
  assert (H5 : fits_int64 (factory_clock (twin scenario_A)) = true)
    by reflexivity.
  assert (H6 : 50 * 4 <= 500) by lia.
  assert (H7 : 0 < 95) by lia.
  repeat (split; [assumption|]).
  destruct (X9_start_then_cancel scenario_A "O2" 4 500 95
              H0 H1 H2 H3 H4 H5 H6 H7)
    as (msg & w1 & w2 & Hs & Hcan & Ha & Hcash & Hhealth & _).
  exists w2. rewrite Hs. cbn [world_of]. rewrite Hcan. cbn [world_of].
  split; [reflexivity|]. split; [exact Ha|].
  split; [exact Hcash|]. rewrite Hhealth. reflexivity.
Defined.

(** *** A factory that cannot recover *)

(** X10: a broken machine without the money for a repair is final.  With
    [machine_health <= 0] and [cash_balance < 200], no sequence of calls
    changes the cash or the health again and none adds a job: every later
    [start_job] and [repair_machine] is refused. *)
Theorem X10_broken_and_broke_is_final (cs : list Command) (w : World) :
  (num_val (machine_health (twin w)) <= 0)%Q ->
  (cash_balance (twin w) < 200)%Q ->
  cash_balance (twin (run cs w)) = cash_balance (twin w)
  /\ machine_health (twin (run cs w)) = machine_health (twin w)
  /\ (length (active_jobs (twin (run cs w))) <= length (active_jobs (twin w)))%nat
  /\ (forall job_id qty,
        world_of (start_job job_id qty (run cs w)) = run cs w)
  /\ world_of (repair_machine (run cs w)) = run cs w.
Proof.
  intros Hh Hc.
  assert (Hinv : cash_balance (twin (run cs w)) = cash_balance (twin w)
                 /\ machine_health (twin (run cs w)) = machine_health (twin w)
                 /\ (length (active_jobs (twin (run cs w)))
                     <= length (active_jobs (twin w)))%nat).
  { apply (run_invariant
             (fun w' => cash_balance (twin w') = cash_balance (twin w)
                        /\ machine_health (twin w') = machine_health (twin w)
                        /\ (length (active_jobs (twin w'))
                            <= length (active_jobs (twin w)))%nat));
      [|repeat split; lia].
    intros c w' (H1 & H2 & H3).
    destruct (exec_twin_step c w')
      as [|job_id qty _ Hpos|l1 job l2 Hl|Hrich|new_shift _|jobs Hj];
      cbn [active_jobs cash_balance machine_health set_active_jobs
             set_machine_health set_cash_balance set_current_shift
             set_factory_clock].
    - auto.
    - exfalso. rewrite H2 in Hpos. exact (Qlt_not_le _ _ Hpos Hh).
    - repeat split; try assumption. rewrite Hl in H3.
      rewrite length_app in *. cbn [length] in H3. lia.
    - exfalso. rewrite H1 in Hrich. exact (Qlt_not_le _ _ Hc Hrich).
    - auto.
    - repeat split; try assumption.
      destruct Hj as [-> | (c0 & Hc0)].
      + now rewrite length_map.
      + apply list_remove_length in Hc0. rewrite length_map in Hc0. lia. }
  destruct Hinv as (H1 & H2 & H3).
  repeat split; try assumption.
  - intros job_id qty.
    destruct (start_job_cases job_id qty (run cs w))
      as [-> | [-> | [-> | (_ & Hpos & _)]]]; try reflexivity.
    exfalso. rewrite H2 in Hpos. exact (Qlt_not_le _ _ Hpos Hh).
  - destruct (repair_machine_cases (run cs w)) as [-> | (Hrich & _)];
      [reflexivity|].
    exfalso. rewrite H1 in Hrich. exact (Qlt_not_le _ _ Hc Hrich).
Qed.

Lemma X10_witness :
  let cs := [StartJob "O1" (-5); RepairMachine; Tick; ChangeShift "NIGHT"] in
  (num_val (machine_health (twin broke)) <= 0)%Q
  /\ (cash_balance (twin broke) < 200)%Q
  /\ cash_balance (twin (run cs broke)) = 100%Q
  /\ machine_health (twin (run cs broke)) = PyInt 0
  /\ world_of (start_job "O2" 1 (run cs broke)) = run cs broke.
Proof.
  intros cs.
  assert (Hh : (num_val (machine_health (twin broke)) <= 0)%Q)
    by (vm_compute; discriminate).
  assert (Hc : (cash_balance (twin broke) < 200)%Q) by (vm_compute; reflexivity).
  destruct (X10_broken_and_broke_is_final cs broke Hh Hc)
    as (H1 & H2 & _ & Hs & _).
  split; [exact Hh|]. split; [exact Hc|].
  split; [exact H1|]. split; [exact H2|]. apply Hs.
Defined.

(** *** Looking things up in the forecast *)

Lemma pykey_eqb_eq (a b : pykey) : pykey_eqb a b = true <-> a = b.
Proof.
  destruct a as [s|n], b as [t|m]; cbn.
  - rewrite String.eqb_eq. split; [now intros -> | now intros [= ->]].
  - split; discriminate.
  - split; discriminate.
  - rewrite Z.eqb_eq. split; [now intros -> | now intros [= ->]].
Qed.

Lemma dict_get_nth {V : Type} (d : dict V) : forall i k v,
  List.NoDup (map fst d) -> nth_error d i = Some (k, v) ->
  dict_get k d = Some v.
Proof.
  induction d as [|[k' v'] d IH]; intros i k v Hnd Hi.
  - destruct i; discriminate.
  - inversion Hnd as [|? ? Hk' Hnd']; subst. cbn [dict_get].
    destruct i as [|i]; cbn in Hi.
    + injection Hi as -> ->.
      now rewrite (proj2 (pykey_eqb_eq k k) eq_refl).
    + destruct (pykey_eqb k' k) eqn:E; [|now apply IH with i].
      apply pykey_eqb_eq in E. subst k'. exfalso. apply Hk'.
      apply nth_error_In in Hi. now apply (in_map fst) in Hi.
Qed.

Lemma dict_get_present {V : Type} (k : pykey) (d : dict V) :
  dict_get k d <> None <-> In k (map fst d).
Proof.
  induction d as [|[k' v'] d IH]; cbn; [tauto|].
  destruct (pykey_eqb k' k) eqn:E.
  - apply pykey_eqb_eq in E. split; [now left | discriminate].
  - rewrite IH. split; [now right|]. intros [Hk | Hin]; [|exact Hin].
    apply pykey_eqb_eq in Hk. congruence.
Qed.

(** X11: the forecast answers to the decimal string of a tick and to
    nothing else.  A key is present exactly when it is [str(clock + t)] for
    an offset [1 <= t <= horizon]; looking that string up gives the entry
    written for offset [t]; and indexing with any int raises [KeyError],
    whatever the int. *)
Theorem X11_forecast_lookup (w : World) (horizon : Z) :
  exists items w',
    get_market_forecast horizon w = Returned items w'
    /\ (forall key,
          dict_get key items <> None
          <-> exists t, 1 <= t <= horizon
                        /\ key = KStr (py_str (factory_clock (twin w) + t)))
    /\ (forall t,
          1 <= t <= horizon ->
          exists e,
            dict_get (KStr (py_str (factory_clock (twin w) + t))) items = Some e
            /\ nth_error items (Z.to_nat (t - 1))
               = Some (KStr (py_str (factory_clock (twin w) + t)), e))
    /\ (forall k, getitem items (KInt k) w' = Raised (KeyError (KInt k)) w').
Proof.
  eexists _, _. split; [apply get_market_forecast_eq|].
  split; [|split].
  - intros key. rewrite dict_get_present, forecast_items_fst, List.map_map.
    rewrite in_map_iff. split.
    + intros (i & <- & Hi). apply in_seq in Hi. exists (1 + Z.of_nat i).
      split; [lia | reflexivity].
    + intros (t & Ht & ->). exists (Z.to_nat (t - 1)). split.
      * do 3 f_equal. lia.
      * apply in_seq. lia.
  - intros t Ht.
    assert (Hn : nth_error
                   (forecast_items (twin w) (randint_draw (rng w))
                      (uniform_draw (rng w)) 1 (draws (rng w))
                      (Z.to_nat horizon)) (Z.to_nat (t - 1))
                 = Some (forecast_entry (twin w) (randint_draw (rng w))
                           (uniform_draw (rng w)) t
                           (draws (rng w) + 2 * Z.to_nat (t - 1)))).
    { rewrite forecast_items_nth by lia. do 2 f_equal. lia. }
    eexists. split; [|exact Hn].
    eapply dict_get_nth; [|exact Hn].
    rewrite forecast_items_fst. apply forecast_keys_NoDup.
  - intros k. unfold getitem. now rewrite forecast_items_no_int_key.
Qed.

Lemma X11_witness :
  1 <= 3 <= 5
  /\ exists items w',
       get_market_forecast 5 fresh = Returned items w'
       /\ dict_get (KStr "3") items <> None
       /\ dict_get (KStr "6") items = None
       /\ dict_get (KInt 3) items = None.
Proof.
  assert (Ht : 1 <= 3 <= 5) by lia.
  split; [exact Ht|].
  destruct (X11_forecast_lookup fresh 5) as (items & w' & Hf & Hkeys & Hget & _).
  exists items, w'. split; [exact Hf|]. split; [|split].
  - destruct (Hget 3 Ht) as (e & He & _).
    change (KStr (py_str (factory_clock (twin fresh) + 3))) with (KStr "3") in He.
    rewrite He. discriminate.
  - destruct (dict_get (KStr "6") items) eqn:E; [|reflexivity].
    assert (Hp : dict_get (KStr "6") items <> None) by (rewrite E; discriminate).
    apply Hkeys in Hp. destruct Hp as (t & Hr & Hk). injection Hk as Hk.
    change "6"%string with (py_str 6) in Hk. apply py_str_inj in Hk.
    cbn in Hk. lia.
  - destruct (dict_get (KInt 3) items) eqn:E; [|reflexivity].
    assert (Hp : dict_get (KInt 3) items <> None) by (rewrite E; discriminate).
    apply Hkeys in Hp. destruct Hp as (t & _ & Hk). discriminate Hk.
Defined.

(** X12: asking for a forecast changes nothing but the generator.  The
    twin and both tables are the same afterwards; the generator has made
    exactly two draws per entry; and for [horizon <= 0] the result is the
    empty dictionary and not a single draw is made. *)
Theorem X12_forecast_only_draws (w : World) (horizon : Z) :
  exists items w',
    get_market_forecast horizon w = Returned items w'
    /\ twin w' = twin w
    /\ db w' = db w
    /\ randint_draw (rng w') = randint_draw (rng w)
    /\ uniform_draw (rng w') = uniform_draw (rng w)
    /\ draws (rng w') = (draws (rng w) + 2 * length items)%nat
    /\ Z.of_nat (length items) = Z.max 0 horizon
    /\ (horizon <= 0 -> items = [] /\ w' = w).
Proof.
  eexists _, _. split; [apply get_market_forecast_eq|].
  rewrite twin_advance_by, db_advance_by, draws_advance_by,
    forecast_items_length.
  split; [reflexivity|]. split; [reflexivity|].
  split.
  { induction (2 * Z.to_nat horizon)%nat as [|k IH]; [reflexivity|].
    exact IH. }
  split.
  { induction (2 * Z.to_nat horizon)%nat as [|k IH]; [reflexivity|].
    exact IH. }
  split; [lia|]. split; [lia|].
  intros Hh. replace (Z.to_nat horizon) with 0%nat by lia. split; reflexivity.
Qed.

Lemma X12_witness :
  -1 <= 0
  /\ get_market_forecast (-1) scenario_A = Returned [] scenario_A.
Proof.
  assert (H : -1 <= 0) by lia.
  split; [exact H|].
  destruct (X12_forecast_only_draws scenario_A (-1))
    as (items & w' & Hf & _ & _ & _ & _ & _ & _ & Hempty).
  destruct (Hempty H) as [-> ->]. exact Hf.
Defined.

(** *** The range and the period of the market model *)

Lemma round_half_even_between (y : R) (a b : Z) :
  (IZR a <= y <= IZR b)%R -> a <= round_half_even y <= b.
Proof.
  intros [Ha Hb]. pose proof (Int_part_bounds y) as [Hf1 Hf2].
  assert (Hfa : a <= Int_part y).
  { apply Z.lt_succ_r. apply lt_IZR. rewrite succ_IZR. lra. }
  assert (Hfb : Int_part y <= b) by (apply le_IZR; lra).
  unfold round_half_even.
  destruct (Rlt_dec (y - IZR (Int_part y)) (1 / 2)) as [H1|H1]; [lia|].
  assert (Hup : Int_part y + 1 <= b).
  { apply Z.lt_succ_r. unfold Z.succ. apply Z.add_lt_mono_r.
    apply lt_IZR. lra. }
  destruct (Rlt_dec (1 / 2) (y - IZR (Int_part y))) as [H2|H2]; [lia|].
  destruct (Z.even (Int_part y)); lia.
Qed.

Lemma py_int_between (x : R) (a b : Z) :
  0 <= a -> (IZR a <= x <= IZR b)%R -> a <= py_int x <= b.
Proof.
  intros H0 [Ha Hb].
  assert (Hx : (0 <= x)%R).
  { apply Rle_trans with (IZR a); [now apply IZR_le | exact Ha]. }
  destruct (py_int_nonneg x Hx) as [H1 H2]. split.
  - apply Z.lt_succ_r. apply lt_IZR. rewrite succ_IZR. lra.
  - apply le_IZR. lra.
Qed.

Lemma forecast_items_In s ri un n : forall t i kv,
  In kv (forecast_items s ri un t i n) ->
  exists t' i', kv = forecast_entry s ri un t' i'.
Proof.
  induction n as [|n IH]; intros t i kv Hin; [destruct Hin|].
  destruct Hin as [<- | Hin]; [now exists t, i | now apply IH in Hin].
Qed.

(** X13: the forecast stays in range.  In every reachable world, when the
    generator keeps its promises ([randint] within -2..2, [uniform] within
    -5..5), each entry has a demand between 3 and 17 — so the floor
    [max(1, ...)] never acts — and a price between 125 and 175. *)
Theorem X13_forecast_range (w : World) (horizon : Z) :
  reachable w ->
  rng_sound (rng w) ->
  exists items w',
    get_market_forecast horizon w = Returned items w'
    /\ forall key e,
         In (key, e) items ->
         3 <= demand e <= 17 /\ (125 <= price e <= 175)%Q.
Proof.
  intros Hr Hs. destruct (reachable_config w Hr) as [Hp Hd].
  eexists _, _. split; [apply get_market_forecast_eq|].
  intros key e Hin. apply forecast_items_In in Hin.
  destruct Hin as (t & i & E). unfold forecast_entry in E.
  injection E as _ ->. cbn [demand price]. rewrite Hp, Hd.
  pose proof (SIN_bound (IZR (factory_clock (twin w) + t) * (2 * PI / 24)))
    as [Hlo Hhi].
  fold (cycle_of (factory_clock (twin w) + t)) in Hlo, Hhi.
  destruct (Hs i) as [[Hn1 Hn2] _]. destruct (Hs (S i)) as [_ [Hu1 Hu2]].
  apply IZR_le in Hn1, Hn2. split.
  - assert (H : 3 <= py_int (IZR 10
                             + cycle_of (factory_clock (twin w) + t) * 5
                             + IZR (randint_draw (rng w) i)) <= 17).
    { apply py_int_between; [lia|]. lra. }
    lia.
  - assert (Hq : (Q2R 150 = 150)%R) by (unfold Q2R; cbn; lra).
    assert (H : 12500 <= round_half_even
                           ((Q2R 150
                             + cycle_of (factory_clock (twin w) + t) * 20
                             + uniform_draw (rng w) (S i)) * 100) <= 17500).
    { apply round_half_even_between. rewrite Hq. lra. }
    unfold py_round2, Qle. cbn [Qnum Qden]. lia.
Qed.

Lemma X13_witness :
  reachable scenario_A
  /\ rng_sound (rng scenario_A)
  /\ exists items w',
       get_market_forecast 5 scenario_A = Returned items w'
       /\ length items = 5%nat
       /\ List.Forall (fun kv => 3 <= demand (snd kv) <= 17) items.
Proof.
  assert (Hr : reachable scenario_A) by (apply reachable_exec, reachable_init).
  assert (Hs : rng_sound (rng scenario_A)).
  { replace (rng scenario_A) with quiet_rng by (vm_compute; reflexivity).
    intros n. cbn. split; [lia | lra]. }
  split; [exact Hr|]. split; [exact Hs|].
  destruct (X13_forecast_range scenario_A 5 Hr Hs) as (items & w' & Hf & Hb).
  exists items, w'. split; [exact Hf|]. split.
  - pose proof (get_market_forecast_eq 5 scenario_A) as E.
    rewrite Hf in E.
    assert (Ei : items = forecast_items (twin scenario_A)
                           (randint_draw (rng scenario_A))
                           (uniform_draw (rng scenario_A)) 1
                           (draws (rng scenario_A)) (Z.to_nat 5))
      by congruence.
    rewrite Ei. apply forecast_items_length.
  - apply List.Forall_forall. intros [key e] Hin. exact (proj1 (Hb key e Hin)).
Defined.

Lemma rng_advance_by (k : nat) (w : World) :
  rng (advance_by k w)
  = {| randint_draw := randint_draw (rng w);
       uniform_draw := uniform_draw (rng w);
       draws := (k + draws (rng w))%nat |}.
Proof.
  induction k as [|k IH]; [now destruct w as [s d [ri un n]]|].
  change (rng (advance (advance_by k w))
          = {| randint_draw := randint_draw (rng w);
               uniform_draw := uniform_draw (rng w);
               draws := S (k + draws (rng w)) |}).
  unfold advance. cbn [rng]. now rewrite IH.
Qed.

Lemma cycle_of_period (tick : Z) : cycle_of (tick + 24) = cycle_of tick.
Proof.
  unfold cycle_of. rewrite plus_IZR.
  replace ((IZR tick + 24) * (2 * PI / 24))%R
    with (IZR tick * (2 * PI / 24) + 2 * PI)%R by lra.
  rewrite sin_plus, sin_2PI, cos_2PI. lra.
Qed.

Lemma forecast_items_period s ri un n : forall t i,
  map snd (forecast_items (set_factory_clock (factory_clock s + 24) s)
             ri un t i n)
  = map snd (forecast_items s ri un t i n).
Proof.
  induction n as [|n IH]; intros t i; [reflexivity|].
  cbn [forecast_items map]. rewrite IH. f_equal.
  unfold forecast_entry.
  cbn [snd set_factory_clock factory_clock base_market_demand
         base_market_price].
  replace (factory_clock s + 24 + t) with (factory_clock s + t + 24) by lia.
  now rewrite cycle_of_period.
Qed.

(** *** Sessions driven through the tools *)

Lemma tool_exec_step (c : ToolCall) (w : World) :
  factory_clock (twin (tool_exec c w)) = factory_clock (twin w)
  /\ current_shift (twin (tool_exec c w)) = current_shift (twin w)
  /\ factory_history (db (tool_exec c w)) = factory_history (db w)
  /\ (forall job,
        In job (active_jobs (twin (tool_exec c w))) ->
        In job (active_jobs (twin w))
        \/ (j_duration job = 5 /\ j_start_tick job = factory_clock (twin w))).
Proof.
  destruct c as [order_id qty|order_id| | | | | |cat descr];
    cbn [tool_exec AFMTools.start_job AFMTools.cancel_job
           AFMTools.repair_machine AFMTools.change_shift
           AFMTools.get_market_forecast AFMTools.log_issue world_after];
    try (repeat split; now left).
  - destruct (start_job_cases order_id qty w)
      as [-> | [-> | [-> | (_ & _ & ->)]]];
      try (repeat split; now left).
    unfold started_world.
    destruct (fits_int64 (factory_clock (twin w))
              && fits_int64 (factory_clock (twin w))
              && fits_int64 (50 * qty));
      cbn [world_of twin db factory_clock current_shift factory_history
             active_jobs];
      (do 3 (split; [reflexivity|])); intros job Hin; apply in_app_or in Hin.
    all: destruct Hin as [Hin | [<- | []]];
      [now left | right; split; reflexivity].
  - destruct (find_job order_id (active_jobs (twin w))) as [job|] eqn:E.
    + destruct (find_job_split _ _ _ E) as (l1 & l2 & Hl & Hid & Hl1).
      rewrite (cancel_job_found _ _ _ _ _ Hl Hid Hl1).
      unfold cancelled_world.
      destruct (fits_int64 (j_start_tick job)
                && fits_int64 (factory_clock (twin w))
                && fits_int64 (j_cost job));
        cbn [world_of twin db factory_history set_active_jobs
               factory_clock current_shift active_jobs];
        (do 3 (split; [reflexivity|])); intros j Hin; left; rewrite Hl;
        apply in_app_or in Hin; apply in_or_app;
        (destruct Hin as [Hin|Hin]; [now left | right; now right]).
    + unfold cancel_job. run_eng. rewrite E. repeat split; now left.
  - destruct (repair_machine_cases w) as [-> | (_ & ->)];
      repeat split; now left.
Qed.

(** X15: through the tools time stands still.  [AFMTools] has no tool that
    ticks, and its [change_shift] fails before it reaches the engine.  So
    after any sequence of tool calls the clock and the shift are the ones
    the session began with, no snapshot has been written, and every active
    job is either an old one, untouched, or a new one that still has its
    full 5 ticks of duration. *)
Theorem X15_tools_never_advance_time (cs : list ToolCall) (w : World) :
  factory_clock (twin (tool_run cs w)) = factory_clock (twin w)
  /\ current_shift (twin (tool_run cs w)) = current_shift (twin w)
  /\ factory_history (db (tool_run cs w)) = factory_history (db w)
  /\ (forall job,
        In job (active_jobs (twin (tool_run cs w))) ->
        In job (active_jobs (twin w))
        \/ (j_duration job = 5 /\ j_start_tick job = factory_clock (twin w))).
Proof.
  revert w. induction cs as [|c cs IH]; intros w.
  - repeat split. now left.
  - cbn [tool_run fold_left]. fold (tool_run cs (tool_exec c w)).
    destruct (IH (tool_exec c w)) as (H1 & H2 & H3 & H4).
    destruct (tool_exec_step c w) as (S1 & S2 & S3 & S4).
    rewrite H1, H2, H3, S1, S2, S3. repeat split.
    intros job Hin. destruct (H4 job Hin) as [Hold | [Hd Hst]].
    + now apply S4.
    + right. split; [exact Hd | now rewrite Hst, S1].
Qed.

Lemma X15_witness :
  let cs := [TStartJob "O1" 10; TChangeShift; TGetMarketForecast;
             TStartJob "O2" 1; TCancelJob "O1"; TRepairMachine; TGetStatus] in
  let o2 := {| j_id := "O2"; j_qty := 1; j_start_tick := 0; j_duration := 5;
               j_cost := 50; j_revenue := 0 |} in
  In o2 (active_jobs (twin (tool_run cs fresh)))
  /\ j_duration o2 = 5
  /\ factory_clock (twin (tool_run cs fresh)) = 0
  /\ current_shift (twin (tool_run cs fresh)) = "DAY"%string
  /\ factory_history (db (tool_run cs fresh)) = ∅.
Proof.
  intros cs o2.
  assert (Hin : In o2 (active_jobs (twin (tool_run cs fresh)))).
  { replace (active_jobs (twin (tool_run cs fresh))) with [o2]; [now left|].
    unfold cs, tool_run. cbn [fold_left tool_exec].
    cbn [AFMTools.start_job AFMTools.cancel_job AFMTools.repair_machine
           AFMTools.change_shift AFMTools.get_market_forecast world_after].
    rewrite get_market_forecast_eq. cbn [world_of].
    set (w1 := world_of (start_job "O1" 10 fresh)).
    assert (Ht : twin (advance_by (2 * Z.to_nat 5) w1) = twin w1)
      by apply twin_advance_by.
    unfold start_job at 1. run_eng. rewrite Ht. subst w1.
    vm_compute. reflexivity. }
  destruct (X15_tools_never_advance_time cs fresh) as (H1 & H2 & H3 & H4).
  split; [exact Hin|].
  destruct (H4 o2 Hin) as [[] | [Hd _]].
  split; [exact Hd|]. split; [exact H1|]. split; [exact H2 | exact H3].
Defined.

(** *** What a raising tick leaves behind *)

Lemma list_remove_skip (l1 l2 : list Job) (x : Job) :
  List.Forall (fun y => job_eqb y x = false) l1 ->
  list_remove x (l1 ++ x :: l2) = Some (l1 ++ l2).
Proof.
  induction 1 as [|y l1 Hy _ IH]; cbn.
  - now rewrite job_eqb_refl.
  - now rewrite Hy, IH.
Qed.

Lemma filter_none (f : Job -> bool) (l : list Job) :
  List.Forall (fun y => f y = false) l -> List.filter f l = [].
Proof. induction 1 as [|y l Hy _ IH]; cbn; [reflexivity|]. now rewrite Hy. Qed.

(** X16: the state after a tick that raises.  When the first job with at
    most one tick left stands behind jobs that all have more, the tick
    raises [KeyError], and what it leaves is: the clock moved by one, that
    one job gone from the list, every other job — later finished ones
    included — still listed with its duration decremented, both tables
    untouched and two values drawn from the generator. *)
Theorem X16_raising_tick_state (w : World) (l1 l2 : list Job) (job : Job) :
  active_jobs (twin w) = l1 ++ job :: l2 ->
  (forall j, In j l1 -> 1 < j_duration j) ->
  j_duration job <= 1 ->
  exists w',
    tick w = Raised (KeyError (KInt (factory_clock (twin w) + 2))) w'
    /\ twin w'
       = set_active_jobs
           (map (fun j => set_duration (j_duration j - 1) j) l1
            ++ map (fun j => set_duration (j_duration j - 1) j) l2)
           (set_factory_clock (factory_clock (twin w) + 1) (twin w))
    /\ db w' = db w
    /\ draws (rng w') = (2 + draws (rng w))%nat.
Proof.
  intros Hl Hl1 Hd.
  assert (Hp : progress_jobs (active_jobs (twin w))
               = (map decrement l1 ++ decrement job :: map decrement l2,
                  decrement job
                  :: List.filter (fun j => j_duration j <=? 0)
                       (map decrement l2))).
  { rewrite progress_jobs_eq, Hl, map_app. cbn [map]. f_equal.
    rewrite List.filter_app, filter_none.
    - cbn [app List.filter].
      replace (j_duration (decrement job) <=? 0) with true; [reflexivity|].
      symmetry. apply Z.leb_le. cbn. lia.
    - apply List.Forall_map, List.Forall_forall. intros j Hin.
      apply Z.leb_gt. cbn. specialize (Hl1 j Hin). lia. }
  destruct (tick_raises _ _ _ _ Hp) as (l & Hrm & Ht).
  rewrite list_remove_skip in Hrm.
  - injection Hrm as <-. eexists. split.
    + rewrite Ht. do 3 f_equal. lia.
    + rewrite twin_advance_by, db_advance_by, draws_advance_by.
      repeat split.
  - apply List.Forall_map, List.Forall_forall. intros j Hin.
    specialize (Hl1 j Hin). unfold job_eqb.
    replace (j_duration (decrement j) =? j_duration (decrement job)) with false.
    + now rewrite !andb_false_r.
    + symmetry. apply Z.eqb_neq. cbn. lia.
Qed.

Lemma X16_witness :
  let w := run [StartJob "A" 1; StartJob "B" 1; Tick; Tick; Tick; Tick] fresh in
  let a := {| j_id := "A"; j_qty := 1; j_start_tick := 0; j_duration := 1;
              j_cost := 50; j_revenue := 0 |} in
  let b := {| j_id := "B"; j_qty := 1; j_start_tick := 0; j_duration := 1;
              j_cost := 50; j_revenue := 0 |} in
  active_jobs (twin w) = [] ++ a :: [b]
  /\ (forall j, In j [] -> 1 < j_duration j)
  /\ j_duration a <= 1
  /\ exists w',
       tick w = Raised (KeyError (KInt 6)) w'
       /\ active_jobs (twin w') = [set_duration 0 b]
       /\ factory_clock (twin w') = 5.
Proof.
  intros w a b.
  assert (Hl : active_jobs (twin w) = [] ++ a :: [b]) by (vm_compute; reflexivity).
  assert (Hl1 : forall j, In j (@nil Job) -> 1 < j_duration j) by (intros j []).
  assert (Hd : j_duration a <= 1) by (cbn; lia).
  split; [exact Hl|]. split; [exact Hl1|]. split; [exact Hd|].
  destruct (X16_raising_tick_state w [] [b] a Hl Hl1 Hd) as (w' & Ht & Htw & _).
  exists w'. split.
  - rewrite Ht. do 3 f_equal.
  - rewrite Htw. split; vm_compute; reflexivity.
Defined.

(** *** The figures [get_financials] reports *)

(** X17: [get_financials] reports the figures [start_job] works with.  It
    returns the current cash and the unit cost 50 without changing the
    world; [start_job] changes the world only when the machine works and
    the reported cash covers the reported unit cost times [qty]; and for
    whole cash, with the cash, the cost and their difference at most
    [2^53] in magnitude, an accepted job lowers the reported cash by
    exactly that amount. *)
Theorem X17_financials_match_start_job
  (w : World) (job_id : string) (qty cash : Z) :
  exists fin,
    get_financials w = Returned fin w
    /\ assoc_get "Cash Balance" fin = Some (PyFloat (cash_balance (twin w)))
    /\ assoc_get "Unit Cost" fin = Some (PyInt 50)
    /\ assoc_get "Unit Revenue (Est)" fin
       = Some (PyFloat (base_market_price (twin w)))
    /\ (world_of (start_job job_id qty w) <> w ->
        (inject_Z (50 * qty) <= cash_balance (twin w))%Q
        /\ (0 < num_val (machine_health (twin w)))%Q)
    /\ (whole (cash_balance (twin w)) cash ->
        Z.abs (50 * qty) <= 2 ^ 53 ->
        Z.abs (cash - 50 * qty) <= 2 ^ 53 ->
        50 * qty <= cash ->
        (0 < num_val (machine_health (twin w)))%Q ->
        exists fin' reported,
          get_financials (world_of (start_job job_id qty w))
          = Returned fin' (world_of (start_job job_id qty w))
          /\ assoc_get "Cash Balance" fin' = Some (PyFloat reported)
          /\ whole reported (cash - 50 * qty)
          /\ assoc_get "Unit Cost" fin' = Some (PyInt 50)).
Proof.
  eexists. split; [reflexivity|]. cbn [assoc_get String.eqb].
  split; [reflexivity|]. split; [reflexivity|]. split; [reflexivity|].
  split.
  - intros Hne.
    destruct (start_job_cases job_id qty w) as [E | [E | [E | (Hc & Hh & _)]]];
      [rewrite E in Hne; now destruct Hne.. | now split].
  - intros [Hcash Hcb] Hq Hd Hfunds Hh.
    destruct (small_fits _ Hq) as [Hff _].
    assert (Hc : (inject_Z (50 * qty) <= cash_balance (twin w))%Q)
      by (rewrite Hcash, <- Zle_Qle; exact Hfunds).
    rewrite (start_job_ok job_id qty w Hc Hh Hff). cbn [world_of].
    eexists _, _. split; [reflexivity|]. split; [reflexivity|].
    split; [|reflexivity].
    cbn [started_world twin cash_balance].
    split; [now apply whole_sub | exact Hd].
Qed.

Lemma X17_witness :
  world_of (start_job "O1" 10 fresh) <> fresh
  /\ whole (cash_balance (twin fresh)) 1000
  /\ Z.abs (50 * 10) <= 2 ^ 53
  /\ Z.abs (1000 - 50 * 10) <= 2 ^ 53
  /\ 50 * 10 <= 1000
  /\ (0 < num_val (machine_health (twin fresh)))%Q
  /\ exists fin' reported,
       get_financials (world_of (start_job "O1" 10 fresh))
       = Returned fin' (world_of (start_job "O1" 10 fresh))
       /\ assoc_get "Cash Balance" fin' = Some (PyFloat reported)
       /\ whole reported 500.
Proof.
  assert (Hne : world_of (start_job "O1" 10 fresh) <> fresh).
  { intros E. apply (f_equal (fun w => active_jobs (twin w))) in E.
    vm_compute in E. discriminate E. }
  assert (H1 : whole (cash_balance (twin fresh)) 1000)
    by (split; [reflexivity | vm_compute; discriminate]).
  assert (H2 : Z.abs (50 * 10) <= 2 ^ 53) by (vm_compute; discriminate).
  assert (H3 : Z.abs (1000 - 50 * 10) <= 2 ^ 53) by (vm_compute; discriminate).
  assert (H4 : 50 * 10 <= 1000) by lia.
  destruct (X17_financials_match_start_job fresh "O1" 10 1000)
    as (fin & _ & _ & _ & _ & Hacc & Hdebit).
  destruct (Hacc Hne) as [_ Hh].
  repeat (split; [assumption|]).
  destruct (Hdebit H1 H2 H3 H4 Hh) as (fin' & reported & Hf' & Hcash' & Hw & _).
  now exists fin', reported.
Defined.

(** *** The values of the forecast, up to float error *)


